(** * Fixify front end: capture-and-submit flow

    A shallow embedding of the three TypeScript units that carry logic:

    - [src/services/api.ts]            (modules [Api], [ApiService]): the
      HTTP client and its interfaces,
    - [src/components/VideoRecorder.tsx] (module [VideoRecorder]): the
      capture controller,
    - [src/pages/Dashboard.tsx]        (module [Dashboard]): the page that
      owns the list of reports.

    Asynchronous functions are written in a small monad [Async] that threads
    the component state, the log of observable effects and the position in
    the answers of the platform (clock, network, object URLs).  A rejected
    promise or a [throw] is the completion [Throw]. *)

From Stdlib Require Import String Ascii ZArith NArith QArith Bool Lia List.
From Stdlib Require Import DecimalString DecimalZ.
Import ListNotations.

Local Open Scope Z_scope.

(* ===================================================================== *)
(** * JavaScript values used by the code *)
(* ===================================================================== *)

Module Js.

(** A JavaScript string is a sequence of UTF-16 code units. *)
Definition JsString := list N.

(** A source literal (all literals of the three files are ASCII). *)
Definition lit (s : string) : JsString :=
  map N_of_ascii (list_ascii_of_string s).

Definition eqb (s t : JsString) : bool :=
  if list_eq_dec N.eq_dec s t then true else false.

(** [!s] is false exactly for the non-empty strings. *)
Definition truthy (s : JsString) : bool :=
  match s with [] => false | _ :: _ => true end.

(** [a || b] on strings: the left operand when it is truthy. *)
Definition or_else (a : option JsString) (b : JsString) : JsString :=
  match a with
  | Some s => if truthy s then s else b
  | None => b
  end.

(** ECMAScript WhiteSpace and LineTerminator code points, the characters
    that [String.prototype.trim] strips. *)
Definition isWhiteSpace (c : N) : bool :=
  ((c =? 0x09) || (c =? 0x0A) || (c =? 0x0B) || (c =? 0x0C) || (c =? 0x0D)
   || (c =? 0x20) || (c =? 0xA0) || (c =? 0x1680)
   || ((0x2000 <=? c) && (c <=? 0x200A))
   || (c =? 0x2028) || (c =? 0x2029) || (c =? 0x202F) || (c =? 0x205F)
   || (c =? 0x3000) || (c =? 0xFEFF))%N.

Fixpoint trimStart (s : JsString) : JsString :=
  match s with
  | [] => []
  | c :: s' => if isWhiteSpace c then trimStart s' else s
  end.

Definition trimEnd (s : JsString) : JsString := rev (trimStart (rev s)).

Definition trim (s : JsString) : JsString := trimEnd (trimStart s).

(** [n.toString()] and [`${n}`] for an integer-valued number. *)
Definition toString (n : Z) : JsString :=
  lit (NilEmpty.string_of_int (Z.to_int n)).

(** A thrown value.  [isError] is [error instanceof Error]; a value that is
    not an [Error] still has the two string fields, which the code never
    reads in that case. *)
Record Exn := mkExn {
  isError : bool;
  name : JsString;
  message : JsString
}.

(** [new Error(msg)] *)
Definition Error (msg : JsString) : Exn :=
  {| isError := true; name := lit "Error"; message := msg |}.

(** The outcome of running a function body or of awaiting a promise. *)
Inductive Completion (A : Type) : Type :=
| Return (a : A)
| Throw (e : Exn).
Arguments Return {A} a.
Arguments Throw {A} e.

(** ** Blobs and files *)

Record Blob := mkBlob {
  bytes : list Byte.byte;
  type : JsString
}.

Definition size (b : Blob) : Z := Z.of_nat (length (bytes b)).

Definition toLower (c : N) : N :=
  if ((0x41 <=? c) && (c <=? 0x5A))%N then (c + 0x20)%N else c.

(** The File API's treatment of the [type] option: a type with a code unit
    outside U+0020..U+007E becomes the empty string, any other type is
    converted to ASCII lower case. *)
Definition normalizeType (t : JsString) : JsString :=
  if forallb (fun c => (0x20 <=? c) && (c <=? 0x7E))%N t
  then map toLower t else [].

(** [new Blob(parts, { type })] *)
Definition newBlob (parts : list Blob) (t : JsString) : Blob :=
  {| bytes := concat (map bytes parts); type := normalizeType t |}.

Record File := mkFile {
  file_blob : Blob;
  file_name : JsString
}.

(** [new File(parts, name, { type })] *)
Definition newFile (parts : list Blob) (nm t : JsString) : File :=
  {| file_blob := newBlob parts t; file_name := nm |}.

End Js.

(* ===================================================================== *)
(** * The interfaces exported by [src/services/api.ts] *)
(* ===================================================================== *)

Module Api.

Import Js.

(** The response interface keeps its member names in a module of its own:
    [Report] below has members of the same names. *)
Module VideoAnalysis.

Record Data := mkData {
  originalName : JsString;
  fileSize : Z;
  fileSizeInMB : Q;
  analysis : JsString;
  analysisDate : JsString
}.

Record VideoAnalysisResponse := mkResponse {
  success : bool;
  message : JsString;
  data : Data
}.

End VideoAnalysis.

Definition VideoAnalysisResponse := VideoAnalysis.VideoAnalysisResponse.

Inductive Status := pending | reviewing | completed.

(** [submittedAt] is the [Date] as milliseconds since the epoch;
    [videoSize] is a size in bytes divided by [1024 * 1024]. *)
Record Report := mkReport {
  id : JsString;
  description : JsString;
  status : Status;
  submittedAt : Z;
  videoSize : Q;
  analysis : option JsString;
  analysisDate : option JsString
}.

End Api.

(* ===================================================================== *)
(** * The platform: fetch, clock, media recorder, and the monad *)
(* ===================================================================== *)

Module Platform.

Import Js.

Inductive FormValue :=
| FormFile (f : File)
| FormString (s : JsString).

(** A [FormData] is the list of its entries in insertion order. *)
Definition FormData := list (JsString * FormValue).

Definition append (fd : FormData) (k : JsString) (v : FormValue) : FormData :=
  fd ++ [(k, v)].

Record Request := mkRequest {
  url : JsString;
  method : JsString;
  headers : list (JsString * JsString);
  body : option FormData;
  signal : bool          (* an AbortController's signal is attached *)
}.

(** A response.  [json_rejects] is [Some e] when [response.json()] rejects
    with [e]; otherwise the parsed body, taken to be an object, is read
    through [body_message] (its [message] member, if it has one: the error
    path reads the body untyped) or through [parsed] (the body at its
    declared type). *)
Record Response := mkHttpResponse {
  status : Z;
  json_rejects : option Exn;
  body_message : option JsString;
  parsed : Api.VideoAnalysisResponse
}.

(** [response.ok] *)
Definition ok (r : Response) : bool :=
  (200 <=? status r) && (status r <=? 299).

(** The answers of the platform.  The [n]-th query of a run (clock, network
    or object URL) is answered at index [n]. *)
Record Env := mkEnv {
  clock : nat -> Z;
  network : nat -> Request -> Completion Response;
  objectURL : nat -> Blob -> JsString;
  isTypeSupported : JsString -> bool;
  (** the [mimeType] of [new MediaRecorder(stream, { mimeType })] *)
  recorderMimeType : option JsString -> JsString
}.

(** Observable effects, in the order they happen. *)
Inductive Effect :=
| SetTimeoutAbort (ms : Z)
| ClearTimeout
| Fetch (req : Request)
| Toast (title description : JsString) (destructive : bool)
| OnVideoSubmit (videoBlob : Blob) (description : JsString)
| MediaRecorderStart (mimeType : option JsString)
| MediaRecorderStop
| TracksStop.

Record World (S : Type) := mkWorld {
  state : S;
  ticks : nat;
  log : list Effect
}.
Arguments mkWorld {S} _ _ _.
Arguments state {S} _.
Arguments ticks {S} _.
Arguments log {S} _.

Definition Async (S A : Type) : Type :=
  Env -> World S -> Completion A * World S.

Section Monad.
Context {St : Type}.

Definition ret {A} (a : A) : Async St A := fun _ w => (Return a, w).

Definition throw {A} (e : Exn) : Async St A := fun _ w => (Throw e, w).

Definition bind {A B} (m : Async St A) (k : A -> Async St B) : Async St B :=
  fun env w =>
    match m env w with
    | (Return a, w') => k a env w'
    | (Throw e, w') => (Throw e, w')
    end.

(** [try { m } catch (error) { h error }] *)
Definition tryCatch {A} (m : Async St A) (h : Exn -> Async St A) : Async St A :=
  fun env w =>
    match m env w with
    | (Return a, w') => (Return a, w')
    | (Throw e, w') => h e env w'
    end.

(** [try { m } finally { f }] *)
Definition tryFinally {A} (m : Async St A) (f : Async St unit) : Async St A :=
  fun env w =>
    match m env w with
    | (c, w') =>
        match f env w' with
        | (Return _, w'') => (c, w'')
        | (Throw e, w'') => (Throw e, w'')
        end
    end.

(** Awaiting an already settled promise. *)
Definition await {A} (c : Completion A) : Async St A := fun _ w => (c, w).

Definition emit (e : Effect) : Async St unit :=
  fun _ w => (Return tt, mkWorld (state w) (ticks w) (log w ++ [e])).

Definition get : Async St St := fun _ w => (Return (state w), w).

Definition modify (f : St -> St) : Async St unit :=
  fun _ w => (Return tt, mkWorld (f (state w)) (ticks w) (log w)).

Definition ask : Async St Env := fun env w => (Return env, w).

(** One query to the platform: reads the index and advances it. *)
Definition tick : Async St nat :=
  fun _ w => (Return (ticks w), mkWorld (state w) (S (ticks w)) (log w)).

End Monad.

Declare Scope async_scope.
Delimit Scope async_scope with async.
Notation "x <- m ;; k" := (bind m (fun x => k))
  (at level 61, m at next level, right associativity) : async_scope.
Notation "m ;; k" := (bind m (fun _ => k))
  (at level 61, right associativity) : async_scope.
Local Open Scope async_scope.

Section Queries.
Context {St : Type}.

(** [Date.now()], also the time value of [new Date()] *)
Definition Date_now : Async St Z :=
  env <- ask ;; n <- tick ;; ret (clock env n).

(** [await fetch(url, init)] *)
Definition fetch (req : Request) : Async St Response :=
  env <- ask ;; n <- tick ;; emit (Fetch req) ;; await (network env n req).

(** [URL.createObjectURL(blob)] *)
Definition createObjectURL (b : Blob) : Async St JsString :=
  env <- ask ;; n <- tick ;; ret (objectURL env n b).

(** [await response.json()] *)
Definition json (r : Response) : Async St Api.VideoAnalysisResponse :=
  match json_rejects r with
  | Some e => throw e
  | None => ret (parsed r)
  end.

(** [list.map(f)] for a callback that queries the platform *)
Fixpoint mapM {A B} (f : A -> Async St B) (l : list A) : Async St (list B) :=
  match l with
  | [] => ret []
  | a :: l' => b <- f a ;; bs <- mapM f l' ;; ret (b :: bs)
  end.

End Queries.

End Platform.

(* ===================================================================== *)
(** * [class ApiService] of [src/services/api.ts] *)
(* ===================================================================== *)

Module ApiService.

Import Js Platform.
Local Open Scope async_scope.

Definition API_BASE_URL : JsString :=
  lit "https://startup-main.onrender.com/api".

(** The three errors that [uploadVideoForAnalysis] builds itself. *)
Definition invalidBlobError : Exn :=
  Error (lit "Invalid video blob: empty or missing").

Definition timeoutError : Exn :=
  Error (lit "Request timeout - video analysis is taking longer than expected").

Definition networkError : Exn := Error (lit "Network error occurred").

(** [await response.json().catch(() => ({}))], then [.message] *)
Definition errorData_message (response : Response) : option JsString :=
  match json_rejects response with
  | Some _ => None
  | None => body_message response
  end.

(** [new Error(errorData.message || `HTTP error! status: ${response.status}`)] *)
Definition httpError (response : Response) : Exn :=
  Error (or_else (errorData_message response)
           (lit "HTTP error! status: " ++ toString (status response))).

Section Methods.
Context {St : Type}.
Variable baseUrl : JsString.

Definition analyzeRequest (formData : FormData) : Request :=
  {| url := baseUrl ++ lit "/videos/analyze-video";
     method := lit "POST";
     headers := [];
     body := Some formData;
     signal := true |}.

Definition uploadVideoForAnalysis (videoBlob : option Blob)
    (description : JsString) : Async St Api.VideoAnalysisResponse :=
  let formData : FormData := [] in
  match videoBlob with
  | None => throw invalidBlobError
  | Some videoBlob =>
      if size videoBlob =? 0 then throw invalidBlobError
      else
        let videoFile := newFile [videoBlob] (lit "video.mp4") (lit "video/mp4") in
        let formData := append formData (lit "video") (FormFile videoFile) in
        let formData := append formData (lit "description") (FormString description) in
        emit (SetTimeoutAbort 120000) ;;
        tryCatch
          (response <- fetch (analyzeRequest formData) ;;
           emit ClearTimeout ;;
           if negb (ok response) then throw (httpError response)
           else
             result <- json response ;;
             ret result)
          (fun error =>
             emit ClearTimeout ;;
             if isError error then
               if eqb (name error) (lit "AbortError") then throw timeoutError
               else throw error
             else throw networkError)
  end.

Definition testRequest : Request :=
  {| url := baseUrl ++ lit "/videos/test-gemini";
     method := lit "GET";
     headers := [(lit "Content-Type", lit "application/json")];
     body := None;
     signal := false |}.

Definition testConnection : Async St bool :=
  tryCatch
    (response <- fetch testRequest ;;
     if ok response then
       data <- json response ;;
       ret true
     else ret false)
    (fun error => ret false).

End Methods.

End ApiService.

(* ===================================================================== *)
(** * [src/components/VideoRecorder.tsx] *)
(* ===================================================================== *)

Module VideoRecorder.

Import Js Platform.
Local Open Scope async_scope.

Record MediaStream := mkStream { tracks : nat }.

Record MediaRecorder := mkRecorder { mimeType : JsString }.

(** The [useState] cells and the [useRef] cells of the component
    ([videoRef] only drives the preview element and is left out). *)
Record State := mkState {
  isRecording : bool;
  recordedVideoUrl : option JsString;
  recordedBlob : option Blob;
  description : JsString;
  isSubmitting : bool;
  hasPermission : option bool;
  mediaRecorderRef : option MediaRecorder;
  chunksRef : list Blob;
  streamRef : option MediaStream
}.

Definition setIsRecording v s :=
  mkState v (recordedVideoUrl s) (recordedBlob s) (description s)
    (isSubmitting s) (hasPermission s) (mediaRecorderRef s) (chunksRef s) (streamRef s).
Definition setRecordedVideoUrl v s :=
  mkState (isRecording s) v (recordedBlob s) (description s)
    (isSubmitting s) (hasPermission s) (mediaRecorderRef s) (chunksRef s) (streamRef s).
Definition setRecordedBlob v s :=
  mkState (isRecording s) (recordedVideoUrl s) v (description s)
    (isSubmitting s) (hasPermission s) (mediaRecorderRef s) (chunksRef s) (streamRef s).
Definition setDescription v s :=
  mkState (isRecording s) (recordedVideoUrl s) (recordedBlob s) v
    (isSubmitting s) (hasPermission s) (mediaRecorderRef s) (chunksRef s) (streamRef s).
Definition setIsSubmitting v s :=
  mkState (isRecording s) (recordedVideoUrl s) (recordedBlob s) (description s)
    v (hasPermission s) (mediaRecorderRef s) (chunksRef s) (streamRef s).
Definition setMediaRecorderRef v s :=
  mkState (isRecording s) (recordedVideoUrl s) (recordedBlob s) (description s)
    (isSubmitting s) (hasPermission s) v (chunksRef s) (streamRef s).
Definition setChunksRef v s :=
  mkState (isRecording s) (recordedVideoUrl s) (recordedBlob s) (description s)
    (isSubmitting s) (hasPermission s) (mediaRecorderRef s) v (streamRef s).
Definition setStreamRef v s :=
  mkState (isRecording s) (recordedVideoUrl s) (recordedBlob s) (description s)
    (isSubmitting s) (hasPermission s) (mediaRecorderRef s) (chunksRef s) v.

Definition supportedFormats : list JsString :=
  [ lit "video/webm;codecs=vp9";
    lit "video/webm;codecs=vp8";
    lit "video/webm";
    lit "video/mp4";
    lit "video/ogg;codecs=theora";
    lit "video/ogg" ].

(** The loop [for (const format of formats) { if (supported(format))
    { options.mimeType = format; break; } }], started with the [mimeType]
    the options object has so far. *)
Fixpoint selectFormat (supported : JsString -> bool) (formats : list JsString)
    (mimeType : option JsString) : option JsString :=
  match formats with
  | [] => mimeType
  | format :: rest =>
      if supported format then Some format
      else selectFormat supported rest mimeType
  end.

Definition startRecording : Async State unit :=
  s <- get ;;
  match streamRef s with
  | None => ret tt
  | Some stream =>
      modify (setChunksRef []) ;;
      env <- ask ;;
      let options := selectFormat (isTypeSupported env) supportedFormats None in
      let mediaRecorder := mkRecorder (recorderMimeType env options) in
      modify (setMediaRecorderRef (Some mediaRecorder)) ;;
      emit (MediaRecorderStart options) ;;
      modify (setIsRecording true)
  end.

(** [mediaRecorder.ondataavailable] *)
Definition ondataavailable (data : Blob) : Async State unit :=
  if 0 <? size data then
    modify (fun s => setChunksRef (chunksRef s ++ [data]) s)
  else ret tt.

(** The blob of [onstop] that keeps the recorder's own type; the code only
    logs it. *)
Definition originalBlob (mediaRecorder : MediaRecorder) (chunks : list Blob) : Blob :=
  let mimeType :=
    if truthy (mimeType mediaRecorder) then mimeType mediaRecorder
    else lit "video/webm" in
  newBlob chunks mimeType.

(** [mediaRecorder.onstop], for the recorder the closure was made for *)
Definition onstop (mediaRecorder : MediaRecorder) : Async State unit :=
  s <- get ;;
  let blob := originalBlob mediaRecorder (chunksRef s) in
  let finalBlob := newBlob (chunksRef s) (lit "video/mp4") in
  url <- createObjectURL finalBlob ;;
  modify (setRecordedVideoUrl (Some url)) ;;
  modify (setRecordedBlob (Some finalBlob)) ;;
  s <- get ;;
  match streamRef s with
  | Some stream => emit TracksStop ;; modify (setStreamRef None)
  | None => ret tt
  end.

Definition stopRecording : Async State unit :=
  s <- get ;;
  match mediaRecorderRef s with
  | Some mediaRecorder =>
      if isRecording s then
        emit MediaRecorderStop ;;
        modify (setIsRecording false)
      else ret tt
  | None => ret tt
  end.

(** [list.forEach(f)] *)
Fixpoint forEach {A} (f : A -> Async State unit) (l : list A) : Async State unit :=
  match l with
  | [] => ret tt
  | a :: l' => f a ;; forEach f l'
  end.

(** One recording from start to finish as the platform drives it: the
    recorder delivers the chunks [during] while it runs and the chunks
    [atStop] after [stop()], then fires [onstop] on the recorder that
    [startRecording] created. *)
Definition recording (during atStop : list Blob) : Async State unit :=
  startRecording ;;
  forEach ondataavailable during ;;
  stopRecording ;;
  forEach ondataavailable atStop ;;
  s <- get ;;
  match mediaRecorderRef s with
  | Some mediaRecorder => onstop mediaRecorder
  | None => ret tt
  end.

Definition missingInformation : Effect :=
  Toast (lit "Missing Information")
    (lit "Please provide a description of the problem.") true.

Section Submit.
(** the [onVideoSubmit] prop: how the promise it returns settles *)
Variable onVideoSubmit : Blob -> JsString -> Completion unit.

Definition handleSubmit : Async State unit :=
  s <- get ;;
  match recordedBlob s, truthy (trim (description s)) with
  | Some blob, true =>
      modify (setIsSubmitting true) ;;
      tryFinally
        (tryCatch
           (emit (OnVideoSubmit blob (trim (description s))) ;;
            await (onVideoSubmit blob (trim (description s))) ;;
            emit (Toast (lit "Report Submitted")
                    (lit "Your video report has been submitted successfully!") false) ;;
            modify (setRecordedVideoUrl None) ;;
            modify (setRecordedBlob None) ;;
            modify (setDescription []))
           (fun error =>
              emit (Toast (lit "Submission Failed")
                      (lit "Failed to submit your report. Please try again.") true)))
        (modify (setIsSubmitting false))
  | _, _ => emit missingInformation
  end.

End Submit.

End VideoRecorder.

(* ===================================================================== *)
(** * [src/pages/Dashboard.tsx] *)
(* ===================================================================== *)

Module Dashboard.

Import Js Platform.
Import Api.
Local Open Scope async_scope.

(** The [useState] cells that [handleVideoSubmit] writes. *)
Record State := mkState {
  reports : list Report;
  isLoading : bool
}.

(** [setReports(prev => f(prev))] *)
Definition setReports (f : list Report -> list Report) (s : State) : State :=
  mkState (f (reports s)) (isLoading s).

Definition setIsLoading (v : bool) (s : State) : State :=
  mkState (reports s) v.

(** [{ ...report, status: v }] *)
Definition withStatus (v : Status) (report : Report) : Report :=
  mkReport (id report) (description report) v (submittedAt report)
    (videoSize report) (analysis report) (analysisDate report).

(** The object literal of line 63, given the two clock readings. *)
Definition newTempReport (now date : Z) (videoBlob : Blob)
    (description : JsString) : Report :=
  {| id := toString now;
     description := description;
     status := pending;
     submittedAt := date;
     videoSize := (inject_Z (size videoBlob) / inject_Z (1024 * 1024))%Q;
     analysis := None;
     analysisDate := None |}.

(** The object literal of line 78. *)
Definition newUpdatedReport (tempReport : Report)
    (response : VideoAnalysisResponse) : Report :=
  {| id := id tempReport;
     description := description tempReport;
     status := completed;
     submittedAt := submittedAt tempReport;
     videoSize := videoSize tempReport;
     analysis := Some (VideoAnalysis.analysis (VideoAnalysis.data response));
     analysisDate := Some (VideoAnalysis.analysisDate (VideoAnalysis.data response)) |}.

(** The updater of line 85. *)
Definition replaceById (tempReport updatedReport : Report)
    (prev : list Report) : list Report :=
  map (fun report =>
         if eqb (id report) (id tempReport) then updatedReport else report)
      prev.

(** The updater of line 95. *)
Definition reviewById (tempReport : Report) (prev : list Report) : list Report :=
  map (fun report =>
         if eqb (id report) (id tempReport) then withStatus reviewing report
         else report)
      prev.

(** The callback of the updater of line 111: it reads the clock at every
    element. *)
Definition reviewIfNow (report : Report) : Async State Report :=
  now <- Date_now ;;
  ret (if eqb (id report) (toString now) then withStatus reviewing report
       else report).

Definition analysisComplete : Effect :=
  Toast (lit "Analysis Complete!")
    (lit "Your video has been analyzed successfully. View the results below.")
    false.

Definition handleVideoSubmit (videoBlob : Blob) (description : JsString)
    : Async State unit :=
  modify (setIsLoading true) ;;
  tryFinally
    (tryCatch
       (now <- Date_now ;;
        date <- Date_now ;;
        let tempReport := newTempReport now date videoBlob description in
        modify (setReports (fun prev => tempReport :: prev)) ;;
        response <- ApiService.uploadVideoForAnalysis ApiService.API_BASE_URL
                      (Some videoBlob) description ;;
        if VideoAnalysis.success response then
          let updatedReport := newUpdatedReport tempReport response in
          modify (setReports (replaceById tempReport updatedReport)) ;;
          emit analysisComplete
        else
          modify (setReports (reviewById tempReport)) ;;
          emit (Toast (lit "Analysis Failed")
                  (or_else (Some (VideoAnalysis.message response))
                     (lit "Failed to analyze video. Please try again."))
                  true))
       (fun error =>
          s <- get ;;
          next <- mapM reviewIfNow (reports s) ;;
          modify (setReports (fun _ => next)) ;;
          emit (Toast (lit "Upload Failed")
                  (if isError error then message error
                   else lit "Failed to upload video. Please try again.")
                  true)))
    (modify (setIsLoading false)).

(** A dashboard session: submit attempts one after the other (the recorder
    disables its button while an attempt is pending), each against whatever
    the platform answers.  [session n w w'] : [n] attempts lead from [w] to
    [w']. *)
Inductive session : nat -> World State -> World State -> Prop :=
| session_nil w : session 0 w w
| session_submit n w w' env videoBlob description :
    session n w w' ->
    session (S n) w (snd (handleVideoSubmit videoBlob description env w')).

(** The id that the next attempt will draw. *)
Definition nextId (env : Env) (w : World State) : JsString :=
  toString (clock env (ticks w)).

(** A session in which every attempt draws an id that no report of the
    list has yet. *)
Inductive freshSession : nat -> World State -> World State -> Prop :=
| fresh_nil w : freshSession 0 w w
| fresh_submit n w w' env videoBlob description :
    freshSession n w w' ->
    ~ In (nextId env w') (map id (reports (state w'))) ->
    freshSession (S n) w (snd (handleVideoSubmit videoBlob description env w')).

(** The page as mounted: no reports. *)
Definition mounted (w : World State) : Prop := reports (state w) = [].

End Dashboard.

(* ===================================================================== *)
(** * String operations of the remaining code *)
(* ===================================================================== *)

Module JsText.

Import Js.

Fixpoint startsWith (pat s : JsString) : bool :=
  match pat, s with
  | [], _ => true
  | _ :: _, [] => false
  | p :: pat', c :: s' => (p =? c)%N && startsWith pat' s'
  end.

(** [s.replace(pat, rep)] for a string pattern and a replacement without
    [$]: the first occurrence of [pat] is replaced. *)
Fixpoint replace (pat rep s : JsString) : JsString :=
  match s with
  | [] => if startsWith pat [] then rep else []
  | c :: s' =>
      if startsWith pat s then rep ++ skipn (length pat) s
      else c :: replace pat rep s'
  end.

(** [s.includes(pat)] *)
Fixpoint includes (pat s : JsString) : bool :=
  match s with
  | [] => startsWith pat []
  | _ :: s' => startsWith pat s || includes pat s'
  end.

(** [/kw/i.test(s)] for a keyword of ASCII letters and spaces: without the
    [u] flag a code unit matches a letter exactly when it is that letter in
    either case. *)
Definition testIgnoreCase (kw s : JsString) : bool :=
  includes (map toLower kw) (map toLower s).

End JsText.

(* ===================================================================== *)
(** * [getHealth] of [src/services/api.ts] *)
(* ===================================================================== *)

Module Health.

Import Js Platform JsText.
Local Open Scope async_scope.

Section Methods.
Context {St : Type}.
Variable baseUrl : JsString.

(** [fetch(url)] without an init object: a GET without headers. *)
Definition healthRequest : Request :=
  {| url := replace (lit "/api") [] baseUrl ++ lit "/health";
     method := lit "GET";
     headers := [];
     body := None;
     signal := false |}.

(** The value of type [any] that [getHealth] resolves to is the parsed body
    of the response; it is represented by the response it was parsed from.
    [return response.json()] is not awaited inside the [try], so a failed
    parse goes past the [catch] block, which rethrows anyway. *)
Definition getHealth : Async St Response :=
  response <- tryCatch (fetch healthRequest) (fun error => throw error) ;;
  match json_rejects response with
  | Some e => throw e
  | None => ret response
  end.

End Methods.

End Health.

(* ===================================================================== *)
(** * The camera side of [src/components/VideoRecorder.tsx] *)
(* ===================================================================== *)

Module Camera.

Import Js Platform JsText VideoRecorder.
Local Open Scope async_scope.

Record VideoConstraints := mkVideo {
  width_ideal : Z;
  width_max : Z;
  height_ideal : Z;
  height_max : Z;
  aspectRatio : Q;
  facingMode : JsString
}.

Record MediaStreamConstraints := mkConstraints {
  video : VideoConstraints;
  audio : bool
}.

(** What the device answers to the component: the user agent string, the
    outcome of [navigator.mediaDevices.getUserMedia], whether the preview
    element is mounted ([videoRef.current]), and how its [play()] settles. *)
Record Device := mkDevice {
  userAgent : JsString;
  getUserMedia : MediaStreamConstraints -> Completion MediaStream;
  videoMounted : bool;
  play : Completion unit
}.

(** The alternatives of the regular expression of line 39. *)
Definition mobileKeywords : list JsString :=
  [ lit "Android"; lit "iPhone"; lit "iPad"; lit "iPod"; lit "BlackBerry";
    lit "IEMobile"; lit "Opera Mini" ].

Definition isMobile (userAgent : JsString) : bool :=
  existsb (fun kw => testIgnoreCase kw userAgent) mobileKeywords.

Definition constraints (userAgent : JsString) : MediaStreamConstraints :=
  {| video :=
       {| width_ideal := 1280; width_max := 1920;
          height_ideal := 720; height_max := 1080;
          aspectRatio := (9 # 16)%Q;
          facingMode := if isMobile userAgent then lit "environment"
                        else lit "user" |};
     audio := true |}.

Definition setHasPermission v s :=
  mkState (isRecording s) (recordedVideoUrl s) (recordedBlob s) (description s)
    (isSubmitting s) v (mediaRecorderRef s) (chunksRef s) (streamRef s).

Definition cameraDenied : Effect :=
  Toast (lit "Camera Access Denied")
    (lit "Please allow camera access to record videos.") true.

(** Binding the stream to the preview element ([srcObject], [load()]) acts
    on the element only, which the state leaves out; what remains of that
    block is the guarded [play()]. *)
Definition startCamera (device : Device) : Async State unit :=
  tryCatch
    (let constraints := constraints (userAgent device) in
     stream <- await (getUserMedia device constraints) ;;
     modify (setStreamRef (Some stream)) ;;
     modify (setHasPermission (Some true)) ;;
     if videoMounted device then
       tryCatch (await (play device)) (fun playError => ret tt)
     else ret tt)
    (fun error =>
       modify (setHasPermission (Some false)) ;;
       emit cameraDenied).

(** [startCamera()] is called without [await]; it never rejects, and the
    model runs it to its end before the next event. *)
Definition resetRecording (device : Device) : Async State unit :=
  modify (setRecordedVideoUrl None) ;;
  modify (setRecordedBlob None) ;;
  modify (setDescription []) ;;
  modify (setChunksRef []) ;;
  startCamera device.

(** The cells as [useState] and [useRef] initialise them. *)
Definition initial : State :=
  mkState false None None [] false None None [] None.

(** Everything that can happen to the component: the mount effect and the
    retry button ([Mount]), the three recording buttons, the events of the
    recorder, typing into the description field and the submit button. *)
Inductive Event :=
| Mount (device : Device)
| ClickStart
| DataAvailable (data : Blob)
| ClickStop
| Stopped (mediaRecorder : MediaRecorder)
| ClickReset (device : Device)
| Typed (text : JsString)
| ClickSubmit (onVideoSubmit : Blob -> JsString -> Completion unit).

Definition handle (e : Event) : Async State unit :=
  match e with
  | Mount device => startCamera device
  | ClickStart => startRecording
  | DataAvailable data => ondataavailable data
  | ClickStop => stopRecording
  | Stopped mediaRecorder => onstop mediaRecorder
  | ClickReset device => resetRecording device
  | Typed text => modify (setDescription text)
  | ClickSubmit onVideoSubmit => handleSubmit onVideoSubmit
  end.

(** The submit button is rendered unless [hasPermission === false], when
    [recordedVideoUrl] is truthy, and is enabled unless
    [isSubmitting || !description.trim()]. *)
Definition submitEnabled (s : State) : bool :=
  match hasPermission s, recordedVideoUrl s with
  | Some false, _ => false
  | _, Some url =>
      truthy url
      && negb (isSubmitting s || negb (truthy (trim (description s))))
  | _, None => false
  end.

End Camera.

(* ===================================================================== *)
(** * The rest of [src/pages/Dashboard.tsx] *)
(* ===================================================================== *)

Module Page.

Import Js Platform Api.
Local Open Scope async_scope.

(** The cells of the page besides those of [Dashboard.State]. *)
Record State := mkState {
  core : Dashboard.State;
  selectedReport : option Report;
  showAnalysis : bool;
  isBackendConnected : option bool
}.

Definition setIsBackendConnected v s :=
  mkState (core s) (selectedReport s) (showAnalysis s) v.
Definition setSelectedReport v s :=
  mkState (core s) v (showAnalysis s) (isBackendConnected s).
Definition setShowAnalysis v s :=
  mkState (core s) (selectedReport s) v (isBackendConnected s).

(** The effect of lines 34-57. *)
Definition testConnectionOnMount : Async State unit :=
  tryCatch
    (isConnected <- ApiService.testConnection ApiService.API_BASE_URL ;;
     modify (setIsBackendConnected (Some isConnected)) ;;
     if negb isConnected then
       emit (Toast (lit "Backend Connection Failed")
               (lit "Unable to connect to the video analysis service. Please check if the backend is running.")
               true)
     else ret tt)
    (fun error =>
       modify (setIsBackendConnected (Some false)) ;;
       emit (Toast (lit "Connection Error")
               (lit "Failed to connect to the backend service.") true)).

Definition handleTestConnection : Async State unit :=
  tryCatch
    (isConnected <- ApiService.testConnection ApiService.API_BASE_URL ;;
     modify (setIsBackendConnected (Some isConnected)) ;;
     if isConnected then
       emit (Toast (lit "Connection Successful")
               (lit "Backend service is running and ready for video analysis.")
               false)
     else
       emit (Toast (lit "Connection Failed")
               (lit "Unable to connect to the backend service.") true))
    (fun error =>
       modify (setIsBackendConnected (Some false)) ;;
       emit (Toast (lit "Connection Error")
               (lit "Failed to test backend connection.") true)).

Definition handleViewAnalysis (report : Report) : Async State unit :=
  modify (setSelectedReport (Some report)) ;;
  modify (setShowAnalysis true).

(** [report.status === 'completed' && report.analysis], the condition
    under which a row offers its View Analysis button. *)
Definition offersAnalysis (report : Report) : bool :=
  match status report, analysis report with
  | completed, Some text => truthy text
  | _, _ => false
  end.

End Page.

(* ===================================================================== *)
(** * Concrete platforms and inputs used by the examples *)
(* ===================================================================== *)

Module Sample.

Import Js Platform.

Definition typeError : Exn :=
  mkExn true (lit "TypeError") (lit "Failed to fetch").

Definition syntaxError : Exn :=
  mkExn true (lit "SyntaxError") (lit "Unexpected end of JSON input").

Definition abortError : Exn :=
  mkExn true (lit "AbortError") (lit "The user aborted a request.").

Definition oneByte : Blob := mkBlob [Byte.x00] (lit "video/mp4").

Definition emptyBlob : Blob := mkBlob [] (lit "video/mp4").

Definition analysisOf (good : bool) : Api.VideoAnalysisResponse :=
  Api.VideoAnalysis.mkResponse good (lit "done")
    (Api.VideoAnalysis.mkData (lit "video.mp4") 1 (1 # 1048576)
       (lit "leaking pipe") (lit "2024-05-01")).

(** A platform whose clock reads [1000 + n] at the [n]-th query, whose
    recorder supports only what [supported] accepts, and whose network
    answers every request with [answer]. *)
Definition platform (supported : JsString -> bool)
    (answer : Completion Response) : Env :=
  {| clock := fun n => 1000 + Z.of_nat n;
     network := fun _ _ => answer;
     objectURL := fun _ _ => lit "blob:1";
     isTypeSupported := supported;
     recorderMimeType := fun o => match o with Some f => f | None => [] end |}.

Definition offline : Env := platform (fun _ => false) (Throw typeError).

Definition answering (status : Z) (json_rejects : option Exn) (good : bool) : Env :=
  platform (fun _ => false)
    (Return (mkHttpResponse status json_rejects None (analysisOf good))).

(** A platform whose clock is stuck at [1000]. *)
Definition frozen (good : bool) : Env :=
  {| clock := fun _ => 1000;
     network := fun _ _ => Return (mkHttpResponse 200 None None (analysisOf good));
     objectURL := fun _ _ => lit "blob:1";
     isTypeSupported := fun _ => false;
     recorderMimeType := fun o => match o with Some f => f | None => [] end |}.

Definition start {St} (s : St) : World St := mkWorld s 0 [].

Definition idle : VideoRecorder.State :=
  VideoRecorder.mkState false None None [] false (Some true) None []
    (Some (VideoRecorder.mkStream 2)).

Definition recorded (description : JsString) : VideoRecorder.State :=
  VideoRecorder.mkState false (Some (lit "blob:1")) (Some oneByte) description
    false (Some true) None [oneByte] None.

Definition emptyPage : Dashboard.State := Dashboard.mkState [] false.

End Sample.

(* ===================================================================== *)
(** * Notions used to state the properties *)
(* ===================================================================== *)

Module Notions.

Import Js Platform Api.
Import ApiService Dashboard.

(** ** The HTTP client *)

(** What the [catch] block of [uploadVideoForAnalysis] throws for a caught
    value. *)
Definition rethrown (error : Exn) : Exn :=
  if isError error then
    if eqb (name error) (lit "AbortError") then timeoutError else error
  else networkError.

(** The completion of an upload whose request got [answer]. *)
Definition uploadCompletion (answer : Completion Response)
    : Completion Api.VideoAnalysisResponse :=
  match answer with
  | Throw e => Throw (rethrown e)
  | Return r =>
      if ok r then
        match json_rejects r with
        | None => Return (parsed r)
        | Some e => Throw (rethrown e)
        end
      else Throw (rethrown (httpError r))
  end.

(** The form that [uploadVideoForAnalysis] sends. *)
Definition formOf (videoBlob : Blob) (description : JsString) : FormData :=
  [ (lit "video",
     FormFile (mkFile (mkBlob (bytes videoBlob) (lit "video/mp4"))
                 (lit "video.mp4")));
    (lit "description", FormString description) ].

(** ** The capture controller *)

Definition unsupported (supported : JsString -> bool) (format : JsString) : Prop :=
  supported format = false.

Definition nonEmpty (data : Blob) : bool := 0 <? size data.

(** The format that [startRecording] passes to the recorder. *)
Definition chosen (env : Env) : option JsString :=
  VideoRecorder.selectFormat (isTypeSupported env)
    VideoRecorder.supportedFormats None.

(** ** The dashboard *)

(** The list that the updater of line 111 builds when its first clock
    reading is the [n]-th query. *)
Fixpoint sweep (env : Env) (n : nat) (l : list Report) : list Report :=
  match l with
  | [] => []
  | report :: l' =>
      (if eqb (id report) (toString (clock env n))
       then withStatus reviewing report else report)
      :: sweep env (S n) l'
  end.

(** How the upload of an attempt completes, given the answer to its
    request. *)
Definition attemptCompletion (videoBlob : Blob) (answer : Completion Response)
    : Completion VideoAnalysisResponse :=
  if size videoBlob =? 0 then Throw ApiService.invalidBlobError
  else uploadCompletion answer.

(** The request of an attempt; it is the third platform query of the
    attempt, after the two clock readings. *)
Definition attemptRequest (videoBlob : Blob) (description : JsString) : Request :=
  ApiService.analyzeRequest ApiService.API_BASE_URL (formOf videoBlob description).

(** The members that no updater is meant to touch. *)
Definition sameIdentity (r r' : Report) : Prop :=
  id r' = id r /\ description r' = description r
  /\ submittedAt r' = submittedAt r /\ videoSize r' = videoSize r.

(** [r'] is [r] up to its status. *)
Definition statusOnly (r r' : Report) : Prop := r' = withStatus (status r') r.

Definition sameId (r r' : Report) : Prop := id r' = id r.

(** The world in which an attempt calls the upload: the temporary report
    has been prepended and the clock has been read twice. *)
Definition pendingWorld (env : Env) (w : World State) (videoBlob : Blob)
    (description : JsString) : World State :=
  mkWorld
    (setReports
       (fun prev =>
          newTempReport (clock env (ticks w)) (clock env (S (ticks w)))
            videoBlob description :: prev)
       (setIsLoading true (state w)))
    (S (S (ticks w))) (log w).

(** [n] attempts turned [prev] into [next]: [n] reports were added in front
    and every report of [prev] is still there, related by [P] to what it
    was. *)
Definition grows (P : Report -> Report -> Prop) (n : nat)
    (prev next : list Report) : Prop :=
  exists added olds,
    next = added ++ olds /\ length added = n /\ Forall2 P prev olds.

End Notions.

(* ===================================================================== *)
(** * Notions and inputs for the properties of the remaining code *)
(* ===================================================================== *)

Module MoreNotions.

Import Js Platform Api.
Import ApiService Dashboard Notions.

(** The [clearTimeout] calls of an upload whose request got [answer]: one
    when the request settles, one more when the [catch] block runs after a
    response had arrived. *)
Definition clears (answer : Completion Response) : list Effect :=
  match answer with
  | Throw _ => [ClearTimeout]
  | Return r =>
      if ok r then
        match json_rejects r with
        | None => [ClearTimeout]
        | Some _ => [ClearTimeout; ClearTimeout]
        end
      else [ClearTimeout; ClearTimeout]
  end.

(** The toast that ends an attempt whose upload completed with [c]. *)
Definition attemptToast (c : Completion VideoAnalysisResponse) : Effect :=
  match c with
  | Return response =>
      if VideoAnalysis.success response then analysisComplete
      else Toast (lit "Analysis Failed")
             (or_else (Some (VideoAnalysis.message response))
                (lit "Failed to analyze video. Please try again."))
             true
  | Throw error => Toast (lit "Upload Failed") (message error) true
  end.

Definition isToast (e : Effect) : bool :=
  match e with Toast _ _ _ => true | _ => false end.

(** The reports that an attempt leaves, given how its upload completed and
    the index of the first clock reading of its [catch] block. *)
Definition attemptReports (env : Env) (n : nat) (tempReport : Report)
    (prev : list Report) (c : Completion VideoAnalysisResponse) : list Report :=
  match c with
  | Return response =>
      if VideoAnalysis.success response
      then replaceById tempReport (newUpdatedReport tempReport response)
             (tempReport :: prev)
      else reviewById tempReport (tempReport :: prev)
  | Throw _ => sweep env n (tempReport :: prev)
  end.

(** The effects of the upload of an attempt: none when the blob is empty. *)
Definition attemptEffects (videoBlob : Blob) (description : JsString)
    (answer : Completion Response) : list Effect :=
  if size videoBlob =? 0 then []
  else SetTimeoutAbort 120000
         :: Fetch (attemptRequest videoBlob description) :: clears answer.

(** The index of the first clock reading of the [catch] block of an
    attempt that starts in [w]. *)
Definition catchTick (videoBlob : Blob) (w : World State) : nat :=
  if size videoBlob =? 0 then (2 + ticks w)%nat else (3 + ticks w)%nat.

(** What [testConnection] returns for the answer to its request. *)
Definition connectedOf (answer : Completion Response) : bool :=
  match answer with
  | Return r =>
      ok r && match json_rejects r with None => true | Some _ => false end
  | Throw _ => false
  end.





(** The handler of the page as the [onVideoSubmit] prop of the recorder:
    how the promise of [handleVideoSubmit] settles. *)
Definition wired (env : Env) (w : World State)
    : Blob -> JsString -> Completion unit :=
  fun videoBlob description =>
    fst (handleVideoSubmit videoBlob description env w).

End MoreNotions.

Module MoreSample.

Import Js Platform.

Definition phone : JsString :=
  lit "Mozilla/5.0 (iPhone; CPU iPhone OS 16_0 like Mac OS X)".

Definition desktop : JsString :=
  lit "Mozilla/5.0 (X11; Linux x86_64) Gecko/20100101 Firefox/115.0".

Definition notAllowed : Exn :=
  mkExn true (lit "NotAllowedError") (lit "Permission denied").

Definition granting (userAgent : JsString) : Camera.Device :=
  Camera.mkDevice userAgent (fun _ => Return (VideoRecorder.mkStream 2)) true
    (Throw notAllowed).

Definition denying (userAgent : JsString) : Camera.Device :=
  Camera.mkDevice userAgent (fun _ => Throw notAllowed) true (Return tt).


Definition emptyPage : Page.State :=
  Page.mkState Sample.emptyPage None false None.

End MoreSample.

Module RecorderNotions.

Import Js Platform VideoRecorder Camera.

(** The recorded-video URL and the recorded blob are set together, and a
    recorded blob is declared as [video/mp4]. *)
Definition coherent (s : State) : Prop :=
  (recordedVideoUrl s = None <-> recordedBlob s = None)
  /\ forall b, recordedBlob s = Some b -> type b = lit "video/mp4".

(** The world after a sequence of events on the component. *)
Definition after (events : list Event) (env : Env) (w : World State)
    : World State :=
  snd (forEach handle events env w).

End RecorderNotions.

(* ===================================================================== *)
(** * Facts about the JavaScript values *)
(* ===================================================================== *)

Module JsFacts.

Import Js.

Lemma eqb_spec (s t : JsString) : reflect (s = t) (eqb s t).
Proof.
  unfold eqb. destruct (list_eq_dec N.eq_dec s t); constructor; assumption.
Qed.

Lemma eqb_refl (s : JsString) : eqb s s = true.
Proof. destruct (eqb_spec s s); congruence. Qed.

Lemma eqb_neq (s t : JsString) : s <> t -> eqb s t = false.
Proof. intros H. destruct (eqb_spec s t); congruence. Qed.

Lemma lit_inj (s t : string) : lit s = lit t -> s = t.
Proof.
  unfold lit. revert t.
  induction s as [|a s IH]; intros [|b t]; simpl; try discriminate; trivial.
  intros H. injection H as Hab Hst.
  rewrite (IH t Hst).
  rewrite <- (ascii_N_embedding a), <- (ascii_N_embedding b), Hab.
  reflexivity.
Qed.

(** Two different clock readings never print to the same id. *)
Lemma toString_inj (m n : Z) : toString m = toString n -> m = n.
Proof.
  unfold toString. intros H. apply lit_inj in H.
  apply DecimalZ.to_int_inj.
  assert (Some (Z.to_int m) = Some (Z.to_int n)) as E.
  { rewrite <- (NilEmpty.isi (Z.to_int m)), <- (NilEmpty.isi (Z.to_int n)), H.
    reflexivity. }
  congruence.
Qed.

Lemma trimStart_whitespace (s : JsString) :
  forallb isWhiteSpace s = true -> trimStart s = [].
Proof.
  induction s as [|c s IH]; simpl; trivial.
  intros H. apply andb_prop in H as [Hc Hs]. rewrite Hc. auto.
Qed.

(** A string of whitespace only (the empty one included) trims to [""]. *)
Lemma trim_whitespace (s : JsString) :
  forallb isWhiteSpace s = true -> trim s = [].
Proof.
  intros H. unfold trim. rewrite (trimStart_whitespace s H). reflexivity.
Qed.

Lemma normalizeType_mp4 : normalizeType (lit "video/mp4") = lit "video/mp4".
Proof. reflexivity. Qed.

Lemma newBlob_bytes (parts : list Blob) (t : JsString) :
  bytes (newBlob parts t) = concat (map bytes parts).
Proof. reflexivity. Qed.

Lemma size_zero_bytes (b : Blob) : size b = 0 -> bytes b = [].
Proof.
  unfold size. destruct (bytes b); simpl; trivial. lia.
Qed.

End JsFacts.

(* ===================================================================== *)
(** * Properties of the HTTP client *)
(* ===================================================================== *)

Module ApiFacts.

Import Js Platform ApiService Notions JsFacts.

#[local] Arguments lit : simpl never.
#[local] Arguments eqb : simpl never.
#[local] Arguments toString : simpl never.

Ltac run_async :=
  unfold tryFinally, tryCatch, bind, fetch, Date_now, createObjectURL, json,
    ask, tick, emit, modify, get, await, ret, throw; cbn.

Section Upload.
Context {St : Type}.
Variables (baseUrl : JsString) (env : Env) (w : World St).

Lemma upload_invalid (videoBlob : option Blob) (description : JsString) :
  videoBlob = None \/ (exists b, videoBlob = Some b /\ size b = 0) ->
  uploadVideoForAnalysis baseUrl videoBlob description env w
  = (Throw invalidBlobError, w).
Proof.
  intros [-> | (b & -> & Hb)]; unfold uploadVideoForAnalysis.
  - reflexivity.
  - rewrite Hb. reflexivity.
Qed.

(** A call with usable media: one timer, one request, and afterwards only
    [clearTimeout]. *)
Lemma upload_valid (b : Blob) (description : JsString) :
  size b <> 0 ->
  let req := analyzeRequest baseUrl (formOf b description) in
  exists rest,
    uploadVideoForAnalysis baseUrl (Some b) description env w
    = (uploadCompletion (network env (ticks w) req),
       mkWorld (state w) (S (ticks w))
         (log w ++ SetTimeoutAbort 120000 :: Fetch req :: rest))
    /\ Forall (eq ClearTimeout) rest.
Proof.
  intros Hb req. unfold uploadVideoForAnalysis.
  apply Z.eqb_neq in Hb. rewrite Hb.
  assert (Hform :
    append (append [] (lit "video")
              (FormFile (newFile [b] (lit "video.mp4") (lit "video/mp4"))))
      (lit "description") (FormString description) = formOf b description).
  { unfold append, formOf, newFile, newBlob. cbn.
    rewrite app_nil_r, normalizeType_mp4. reflexivity. }
  rewrite Hform. fold req. run_async.
  repeat rewrite <- app_assoc. cbn.
  unfold uploadCompletion, rethrown.
  destruct (network env (ticks w) req) as [r | e]; cbn.
  - destruct (ok r); cbn.
    + destruct (json_rejects r) as [e |]; cbn.
      * destruct (isError e); [destruct (eqb (name e) (lit "AbortError")) |];
          (eexists; split; [repeat rewrite <- app_assoc; reflexivity | repeat constructor]).
      * eexists; split; [repeat rewrite <- app_assoc; reflexivity | repeat constructor].
    + assert (eqb (lit "Error") (lit "AbortError") = false) as -> by reflexivity.
      eexists; split; [repeat rewrite <- app_assoc; reflexivity | repeat constructor].
  - destruct (isError e); [destruct (eqb (name e) (lit "AbortError")) |];
      (eexists; split; [repeat rewrite <- app_assoc; reflexivity | repeat constructor]).
Qed.

(** Whatever happens, an upload leaves the caller's state alone. *)
Lemma upload_state (videoBlob : option Blob) (description : JsString) :
  state (snd (uploadVideoForAnalysis baseUrl videoBlob description env w))
  = state w.
Proof.
  destruct videoBlob as [b |].
  - destruct (Z.eq_dec (size b) 0) as [Hb | Hb].
    + rewrite upload_invalid by eauto. reflexivity.
    + destruct (upload_valid b description Hb) as (rest & -> & _). reflexivity.
  - rewrite upload_invalid by auto. reflexivity.
Qed.

End Upload.

Lemma timeout_not_network : timeoutError <> networkError.
Proof. discriminate. Qed.

Lemma timeout_not_status (n : Z) :
  lit "HTTP error! status: " ++ toString n <> message timeoutError.
Proof. discriminate. Qed.

(** A service error coincides with the timeout error only when the server
    itself sent the timeout text as its message. *)
Lemma httpError_timeout (r : Response) :
  httpError r = timeoutError ->
  errorData_message r = Some (message timeoutError).
Proof.
  unfold httpError, or_else. intros H.
  destruct (errorData_message r) as [m |].
  - destruct (truthy m).
    + f_equal. exact (f_equal message H).
    + exfalso. exact (timeout_not_status _ (f_equal message H)).
  - exfalso. exact (timeout_not_status _ (f_equal message H)).
Qed.

End ApiFacts.

Module ApiSpec.

Import Js Platform ApiService Notions JsFacts ApiFacts.

#[local] Arguments lit : simpl never.
#[local] Arguments eqb : simpl never.
#[local] Arguments toString : simpl never.

(** C5.  A call of [uploadVideoForAnalysis] with a null media object or with
    one of size zero throws the validation error [Invalid video blob: empty
    or missing] and leaves the world as it was: nothing is appended to the
    log of effects, so no request is issued (and no platform query made). *)
Theorem upload_fails_fast_on_missing_media :
  forall (St : Type) (baseUrl : JsString) (env : Env) (w : World St)
         (videoBlob : option Blob) (description : JsString),
    videoBlob = None \/ (exists b, videoBlob = Some b /\ size b = 0) ->
    let run := uploadVideoForAnalysis baseUrl videoBlob description env w in
    fst run = Throw invalidBlobError
    /\ message invalidBlobError = lit "Invalid video blob: empty or missing"
    /\ log (snd run) = log w
    /\ snd run = w.
Proof.
  intros St baseUrl env w videoBlob description H run. subst run.
  rewrite (upload_invalid baseUrl env w videoBlob description H).
  repeat split.
Qed.

Lemma upload_fails_fast_on_missing_media_witness :
  (Some Sample.emptyBlob = None
   \/ exists b, Some Sample.emptyBlob = Some b /\ size b = 0)
  /\ fst (uploadVideoForAnalysis API_BASE_URL (Some Sample.emptyBlob)
            (lit "leak") Sample.offline (Sample.start tt))
     = Throw invalidBlobError.
Proof.
  assert (H : Some Sample.emptyBlob = None
              \/ exists b, Some Sample.emptyBlob = Some b /\ size b = 0).
  { right. exists Sample.emptyBlob. split; reflexivity. }
  split; [exact H |].
  exact (proj1 (upload_fails_fast_on_missing_media unit API_BASE_URL
                  Sample.offline (Sample.start tt) (Some Sample.emptyBlob)
                  (lit "leak") H)).
Defined.

(** C6, as stated, fails: a call without media throws before the timer is
    armed, so not every call arms the 120 000 ms abort. *)
Lemma upload_without_media_arms_no_timer :
  ~ In (SetTimeoutAbort 120000)
       (log (snd (uploadVideoForAnalysis API_BASE_URL None (lit "leak")
                    Sample.offline (Sample.start tt)))).
Proof. cbn. intros []. Qed.

(** C6, amended.  Every call of [uploadVideoForAnalysis] whose media is
    present and not empty arms exactly one abort timer, of exactly 120 000
    milliseconds, before it issues its request, which carries the abort
    signal.  Whenever that request ends with an [Error] named [AbortError],
    the call throws the timeout error.  The timeout error differs from the
    network error, and from every service error except one for which the
    server itself sent the timeout text as its message. *)
Theorem upload_timeout :
  forall (St : Type) (baseUrl : JsString) (env : Env) (w : World St)
         (b : Blob) (description : JsString),
    size b <> 0 ->
    let run := uploadVideoForAnalysis baseUrl (Some b) description env w in
    (exists req rest,
        log (snd run) = log w ++ SetTimeoutAbort 120000 :: Fetch req :: rest
        /\ signal req = true
        /\ (forall ms, In (SetTimeoutAbort ms) (Fetch req :: rest) -> False)
        /\ (forall e, network env (ticks w) req = Throw e ->
                      isError e = true -> name e = lit "AbortError" ->
                      fst run = Throw timeoutError))
    /\ timeoutError <> networkError
    /\ (forall r, httpError r = timeoutError ->
                  errorData_message r = Some (message timeoutError)).
Proof.
  intros St baseUrl env w b description Hb run. subst run.
  destruct (upload_valid baseUrl env w b description Hb) as (rest & -> & Hrest).
  split; [| split; [exact timeout_not_network | exact httpError_timeout]].
  eexists; exists rest. cbn [fst snd log]. repeat split.
  - intros ms [H | H]; [discriminate |].
    rewrite Forall_forall in Hrest. specialize (Hrest _ H). discriminate.
  - intros e He Herr Hname. rewrite He. cbn. unfold rethrown.
    rewrite Herr, Hname, eqb_refl. reflexivity.
Qed.

Lemma upload_timeout_witness :
  size Sample.oneByte <> 0
  /\ fst (uploadVideoForAnalysis API_BASE_URL (Some Sample.oneByte) (lit "leak")
            (Sample.platform (fun _ => false) (Throw Sample.abortError))
            (Sample.start tt))
     = Throw timeoutError.
Proof.
  assert (H : size Sample.oneByte <> 0) by discriminate.
  split; [exact H |].
  destruct (upload_timeout unit API_BASE_URL
              (Sample.platform (fun _ => false) (Throw Sample.abortError))
              (Sample.start tt) Sample.oneByte (lit "leak") H)
    as [(req & rest & _ & _ & _ & Habort) _].
  apply (Habort Sample.abortError); reflexivity.
Defined.

(** C7, as stated, fails: a 200 response whose body is not JSON makes
    [testConnection] return [false]. *)
Lemma testConnection_false_on_200_without_json :
  let env := Sample.answering 200 (Some Sample.syntaxError) true in
  (exists r, network env 0 (testRequest API_BASE_URL) = Return r
             /\ status r = 200)
  /\ fst (testConnection API_BASE_URL env (Sample.start tt)) = Return false.
Proof.
  split; [eexists; split; reflexivity | reflexivity].
Qed.

(** C7, amended.  [testConnection] never throws.  When its GET is answered,
    it returns [true] exactly when the status is 2xx and the body parses as
    JSON: [true] for a 200 response with a JSON body, [false] for a 500
    response, [false] for a response whose body does not parse.  When the
    request throws it returns [false]. *)
Theorem testConnection_spec :
  forall (St : Type) (baseUrl : JsString) (env : Env) (w : World St),
    let run := testConnection baseUrl env w in
    let answer := network env (ticks w) (testRequest baseUrl) in
    (exists connected, fst run = Return connected)
    /\ (forall r, answer = Return r -> json_rejects r = None ->
                  fst run = Return (ok r))
    /\ (forall r, answer = Return r -> status r = 200 ->
                  json_rejects r = None -> fst run = Return true)
    /\ (forall r, answer = Return r -> status r = 500 ->
                  fst run = Return false)
    /\ (forall r e, answer = Return r -> json_rejects r = Some e ->
                    fst run = Return false)
    /\ (forall e, answer = Throw e -> fst run = Return false).
Proof.
  intros St baseUrl env w run answer. subst run answer.
  unfold testConnection. run_async.
  destruct (network env (ticks w) (testRequest baseUrl)) as [r | e]; cbn.
  - unfold ok.
    destruct (json_rejects r) as [e |] eqn:Hjson;
      destruct ((200 <=? status r) && (status r <=? 299)) eqn:Hok; cbn;
      (split; [eexists; reflexivity |]);
      repeat split; intros; try congruence;
      repeat match goal with
             | H : Return _ = Return _ |- _ => injection H as <-
             | H : status r = _ |- _ => rewrite H in Hok; cbn in Hok
             end; congruence.
  - split; [eexists; reflexivity |].
    repeat split; intros; congruence.
Qed.

Lemma testConnection_spec_witness :
  network (Sample.answering 200 None true) 0 (testRequest API_BASE_URL)
  = Return (mkHttpResponse 200 None None (Sample.analysisOf true))
  /\ fst (testConnection API_BASE_URL (Sample.answering 200 None true)
            (Sample.start tt))
     = Return true.
Proof.
  split; [reflexivity |].
  destruct (testConnection_spec unit API_BASE_URL
              (Sample.answering 200 None true) (Sample.start tt))
    as (_ & _ & H200 & _).
  apply (H200 (mkHttpResponse 200 None None (Sample.analysisOf true)));
    reflexivity.
Defined.

End ApiSpec.

(* ===================================================================== *)
(** * Properties of the capture controller *)
(* ===================================================================== *)

Module RecorderFacts.

Import Js Platform VideoRecorder Notions JsFacts.
Import ApiFacts.

#[local] Arguments lit : simpl never.
#[local] Arguments eqb : simpl never.

Section Select.
Variable supported : JsString -> bool.

Lemma selectFormat_none (formats : list JsString) (m : option JsString) :
  Forall (unsupported supported) formats -> selectFormat supported formats m = m.
Proof.
  induction 1 as [| format rest Hf _ IH]; simpl; trivial.
  rewrite Hf. exact IH.
Qed.

Lemma selectFormat_first (before after : list JsString) (format : JsString)
    (m : option JsString) :
  Forall (unsupported supported) before -> supported format = true ->
  selectFormat supported (before ++ format :: after) m = Some format.
Proof.
  induction 1 as [| f rest Hf _ IH]; simpl; intros Hs.
  - rewrite Hs. reflexivity.
  - rewrite Hf. auto.
Qed.

(** The loop either finds the first supported format or leaves the
    options as they were. *)
Lemma selectFormat_cases (formats : list JsString) (m : option JsString) :
  (exists before format after,
      formats = before ++ format :: after
      /\ Forall (unsupported supported) before /\ supported format = true
      /\ selectFormat supported formats m = Some format)
  \/ (Forall (unsupported supported) formats /\ selectFormat supported formats m = m).
Proof.
  induction formats as [| f rest IH]; simpl.
  - right. split; [constructor | reflexivity].
  - destruct (supported f) eqn:Hf.
    + left. exists [], f, rest. repeat split; trivial.
    + destruct IH as [(before & format & after & -> & Hb & Hs & Hsel)
                     | [Hall Hsel]].
      * left. exists (f :: before), format, after.
        repeat split; trivial. constructor; assumption.
      * right. split; [constructor; assumption | exact Hsel].
Qed.

End Select.

Lemma bytes_nonEmpty (l : list Blob) :
  concat (map bytes (filter nonEmpty l)) = concat (map bytes l).
Proof.
  induction l as [| d l IH]; simpl; trivial.
  unfold nonEmpty at 1. destruct (Z.ltb_spec 0 (size d)) as [H | H]; simpl.
  - rewrite IH. reflexivity.
  - rewrite IH. rewrite (size_zero_bytes d); [reflexivity |].
    unfold size in *. lia.
Qed.

Lemma setChunksRef_same (s : State) : setChunksRef (chunksRef s) s = s.
Proof. destruct s; reflexivity. Qed.

(** Delivering chunks buffers the non-empty ones, in order, and touches
    nothing else. *)
Lemma forEach_ondataavailable (l : list Blob) (env : Env) (w : World State) :
  forEach ondataavailable l env w
  = (Return tt,
     mkWorld (setChunksRef (chunksRef (state w) ++ filter nonEmpty l) (state w))
       (ticks w) (log w)).
Proof.
  revert w. induction l as [| d l IH]; intros [s t lg]; cbn [forEach].
  - cbn. rewrite app_nil_r, setChunksRef_same. reflexivity.
  - unfold bind, ondataavailable. cbn [filter]. unfold nonEmpty at 1.
    destruct (0 <? size d); cbn; rewrite IH; cbn.
    + rewrite <- app_assoc. reflexivity.
    + reflexivity.
Qed.

Section Recording.
Variables (env : Env) (w : World State) (stream : MediaStream).
Hypothesis held : streamRef (state w) = Some stream.

Lemma startRecording_run :
  startRecording env w
  = (Return tt,
     mkWorld
       (setIsRecording true
          (setMediaRecorderRef
             (Some (mkRecorder (recorderMimeType env (chosen env))))
             (setChunksRef [] (state w))))
       (ticks w) (log w ++ [MediaRecorderStart (chosen env)])).
Proof.
  unfold startRecording. run_async. rewrite held. reflexivity.
Qed.

Lemma recording_run (during atStop : list Blob) :
  let chunks := filter nonEmpty during ++ filter nonEmpty atStop in
  let mediaRecorder := mkRecorder (recorderMimeType env (chosen env)) in
  let finalBlob := newBlob chunks (lit "video/mp4") in
  exists w',
    recording during atStop env w = (Return tt, w')
    /\ mediaRecorderRef (state w') = Some mediaRecorder
    /\ chunksRef (state w') = chunks
    /\ recordedBlob (state w') = Some finalBlob
    /\ recordedVideoUrl (state w') = Some (objectURL env (ticks w) finalBlob)
    /\ streamRef (state w') = None
    /\ isRecording (state w') = false
    /\ description (state w') = description (state w).
Proof.
  intros chunks mediaRecorder finalBlob. unfold recording.
  unfold bind at 1. rewrite startRecording_run.
  unfold bind at 1. rewrite forEach_ondataavailable. cbn [state ticks log].
  unfold bind at 1. unfold stopRecording at 1. run_async.
  rewrite forEach_ondataavailable. cbn.
  unfold onstop. run_async. rewrite held. cbn.
  eexists. split; [reflexivity |]. cbn.
  repeat split.
Qed.

End Recording.

End RecorderFacts.

Module RecorderSpec.

Import Js Platform VideoRecorder Notions JsFacts ApiFacts RecorderFacts.

#[local] Arguments lit : simpl never.
#[local] Arguments eqb : simpl never.

(** C3.  When the description is empty or made of whitespace only, and
    likewise when no recorded blob is present (whatever the description),
    [handleSubmit] does not call [onVideoSubmit]: its only effect is the
    destructive toast [Missing Information], and the state of the component
    is unchanged. *)
Theorem handleSubmit_validates :
  forall (onVideoSubmit : Blob -> JsString -> Completion unit)
         (env : Env) (w : World State),
    forallb isWhiteSpace (description (state w)) = true
    \/ recordedBlob (state w) = None ->
    let run := handleSubmit onVideoSubmit env w in
    fst run = Return tt
    /\ state (snd run) = state w
    /\ log (snd run) = log w ++ [missingInformation]
    /\ (forall b d, ~ In (OnVideoSubmit b d) [missingInformation])
    /\ (forall req, ~ In (Fetch req) [missingInformation]).
Proof.
  intros onVideoSubmit env [s t lg] H run. subst run.
  assert (Hrun : handleSubmit onVideoSubmit env (mkWorld s t lg)
                 = (Return tt, mkWorld s t (lg ++ [missingInformation]))).
  { unfold handleSubmit. run_async. cbn in H.
    destruct H as [H | H].
    - rewrite (trim_whitespace _ H). cbn.
      destruct (recordedBlob s); reflexivity.
    - rewrite H. reflexivity. }
  rewrite Hrun. cbn. repeat split.
  - intros b d [E | []]. discriminate.
  - intros req [E | []]. discriminate.
Qed.

Lemma handleSubmit_validates_witness :
  (forallb isWhiteSpace (description (Sample.recorded (lit "  "))) = true
   \/ recordedBlob (Sample.recorded (lit "  ")) = None)
  /\ log (snd (handleSubmit (fun _ _ => Return tt) Sample.offline
                 (Sample.start (Sample.recorded (lit "  ")))))
     = [missingInformation].
Proof.
  assert (H : forallb isWhiteSpace (description (Sample.recorded (lit "  "))) = true
              \/ recordedBlob (Sample.recorded (lit "  ")) = None)
    by (left; reflexivity).
  split; [exact H |].
  exact (proj1 (proj2 (proj2
    (handleSubmit_validates (fun _ _ => Return tt) Sample.offline
       (Sample.start (Sample.recorded (lit "  "))) H)))).
Defined.

(** C4.  On a valid submit (a recorded blob is present and the trimmed
    description is not empty) [handleSubmit] calls [onVideoSubmit] once, with
    the blob and the trimmed description.  If the callback resolves, the
    recorded blob, the recorded-video URL and the description are cleared;
    if it rejects, all three are exactly as before the attempt.  Either way
    [handleSubmit] itself resolves and the busy flag is down again. *)
Theorem handleSubmit_clears_or_keeps :
  forall (onVideoSubmit : Blob -> JsString -> Completion unit)
         (env : Env) (w : World State) (blob : Blob),
    recordedBlob (state w) = Some blob ->
    truthy (trim (description (state w))) = true ->
    let run := handleSubmit onVideoSubmit env w in
    let settled := onVideoSubmit blob (trim (description (state w))) in
    fst run = Return tt
    /\ isSubmitting (state (snd run)) = false
    /\ (exists toast,
           log (snd run)
           = log w ++ [OnVideoSubmit blob (trim (description (state w))); toast]
           /\ forall b d, toast <> OnVideoSubmit b d)
    /\ (settled = Return tt ->
        recordedBlob (state (snd run)) = None
        /\ recordedVideoUrl (state (snd run)) = None
        /\ description (state (snd run)) = [])
    /\ (forall e, settled = Throw e ->
        recordedBlob (state (snd run)) = Some blob
        /\ recordedVideoUrl (state (snd run)) = recordedVideoUrl (state w)
        /\ description (state (snd run)) = description (state w)).
Proof.
  intros onVideoSubmit env [s t lg] blob Hblob Hdesc run settled.
  subst run settled. cbn in Hblob, Hdesc |- *.
  unfold handleSubmit. run_async. rewrite Hblob, Hdesc. cbn.
  destruct (onVideoSubmit blob (trim (description s))) as [[] | e]; cbn;
    rewrite <- app_assoc; cbn.
  - repeat split; try discriminate.
    eexists; split; [reflexivity | discriminate].
  - repeat split; try discriminate; trivial.
    eexists; split; [reflexivity | discriminate].
Qed.

Lemma handleSubmit_clears_or_keeps_witness :
  recordedBlob (Sample.recorded (lit " leak ")) = Some Sample.oneByte
  /\ truthy (trim (description (Sample.recorded (lit " leak ")))) = true
  /\ recordedBlob
       (state (snd (handleSubmit (fun _ _ => Throw Sample.typeError)
                      Sample.offline
                      (Sample.start (Sample.recorded (lit " leak "))))))
     = Some Sample.oneByte.
Proof.
  assert (H1 : recordedBlob (state (Sample.start (Sample.recorded (lit " leak "))))
               = Some Sample.oneByte) by reflexivity.
  assert (H2 : truthy (trim (description
                 (state (Sample.start (Sample.recorded (lit " leak ")))))) = true)
    by reflexivity.
  split; [exact H1 | split; [exact H2 |]].
  destruct (handleSubmit_clears_or_keeps (fun _ _ => Throw Sample.typeError)
              Sample.offline (Sample.start (Sample.recorded (lit " leak ")))
              Sample.oneByte H1 H2) as (_ & _ & _ & _ & Hkeep).
  exact (proj1 (Hkeep Sample.typeError eq_refl)).
Defined.

(** C8.  A recording that runs from [startRecording] to the recorder's
    [onstop] leaves a recorded blob whose declared type is [video/mp4],
    whatever [mimeType] the recorder reports, and whose bytes are the
    concatenation of the buffered chunks (which is also the concatenation
    of all delivered chunks): the same bytes as the blob built with the
    recorder's own type.  An upload attaches its media as the field [video],
    a file named [video.mp4] of declared type [video/mp4] with the bytes of
    the media. *)
Theorem recording_relabels_bytes_untouched :
  forall (env : Env) (w : World State) (stream : MediaStream)
         (during atStop : list Blob),
    streamRef (state w) = Some stream ->
    let w' := snd (recording during atStop env w) in
    (exists mediaRecorder finalBlob,
        mediaRecorderRef (state w') = Some mediaRecorder
        /\ recordedBlob (state w') = Some finalBlob
        /\ type finalBlob = lit "video/mp4"
        /\ bytes finalBlob = concat (map bytes (chunksRef (state w')))
        /\ bytes finalBlob = concat (map bytes (during ++ atStop))
        /\ bytes finalBlob
           = bytes (originalBlob mediaRecorder (chunksRef (state w'))))
    /\ (forall (St : Type) (baseUrl : JsString) (env' : Env) (u : World St)
               (videoBlob : Blob) (description : JsString),
          size videoBlob <> 0 ->
          exists req videoFile rest,
            log (snd (ApiService.uploadVideoForAnalysis baseUrl
                        (Some videoBlob) description env' u))
            = log u ++ SetTimeoutAbort 120000 :: Fetch req :: rest
            /\ body req = Some [ (lit "video", FormFile videoFile);
                                 (lit "description", FormString description) ]
            /\ file_name videoFile = lit "video.mp4"
            /\ type (file_blob videoFile) = lit "video/mp4"
            /\ bytes (file_blob videoFile) = bytes videoBlob).
Proof.
  intros env w stream during atStop held w'. subst w'. split.
  - destruct (recording_run env w stream held during atStop)
      as (w' & -> & Hmr & Hchunks & Hblob & _).
    cbn [snd]. do 2 eexists.
    split; [exact Hmr |]. split; [exact Hblob |].
    rewrite Hchunks. repeat split.
    rewrite newBlob_bytes, map_app, concat_app, !bytes_nonEmpty.
    rewrite map_app, concat_app. reflexivity.
  - intros St baseUrl env' u videoBlob description Hsize.
    destruct (upload_valid baseUrl env' u videoBlob description Hsize)
      as (rest & -> & _).
    do 2 eexists. exists rest. cbn. repeat split.
Qed.

Lemma recording_relabels_bytes_untouched_witness :
  streamRef (state (Sample.start Sample.idle))
  = Some (mkStream 2)
  /\ option_map type
       (recordedBlob
          (state (snd (recording [Sample.oneByte] [Sample.emptyBlob]
                         (Sample.platform
                            (fun f => eqb f (lit "video/webm")) (Throw Sample.typeError))
                         (Sample.start Sample.idle)))))
     = Some (lit "video/mp4").
Proof.
  assert (H : streamRef (state (Sample.start Sample.idle)) = Some (mkStream 2))
    by reflexivity.
  split; [exact H |].
  destruct (recording_relabels_bytes_untouched
              (Sample.platform (fun f => eqb f (lit "video/webm"))
                 (Throw Sample.typeError))
              (Sample.start Sample.idle) (mkStream 2)
              [Sample.oneByte] [Sample.emptyBlob] H)
    as [(mediaRecorder & finalBlob & _ & Hblob & Htype & _) _].
  rewrite Hblob. cbn [option_map]. rewrite Htype. reflexivity.
Defined.

(** C9.  With a stream held, [startRecording] creates the recorder with the
    first format of the preference list (video/webm;codecs=vp9,
    video/webm;codecs=vp8, video/webm, video/mp4, video/ogg;codecs=theora,
    video/ogg) that [MediaRecorder.isTypeSupported] accepts, whatever that
    predicate is, and with no [mimeType] at all when it rejects all six. *)
Theorem startRecording_selects_first_supported :
  forall (env : Env) (w : World State) (stream : MediaStream),
    streamRef (state w) = Some stream ->
    let w' := snd (startRecording env w) in
    supportedFormats
    = [ lit "video/webm;codecs=vp9"; lit "video/webm;codecs=vp8";
        lit "video/webm"; lit "video/mp4";
        lit "video/ogg;codecs=theora"; lit "video/ogg" ]
    /\ exists options,
        log w' = log w ++ [MediaRecorderStart options]
        /\ mediaRecorderRef (state w')
           = Some (mkRecorder (recorderMimeType env options))
        /\ ((exists before format after,
                supportedFormats = before ++ format :: after
                /\ Forall (fun f => isTypeSupported env f = false) before
                /\ isTypeSupported env format = true
                /\ options = Some format)
            \/ (Forall (fun f => isTypeSupported env f = false) supportedFormats
                /\ options = None)).
Proof.
  intros env w stream held w'. subst w'.
  split; [reflexivity |].
  rewrite (startRecording_run env w stream held). cbn [snd log state].
  exists (chosen env). split; [reflexivity |]. split; [reflexivity |].
  unfold chosen.
  destruct (selectFormat_cases (isTypeSupported env) supportedFormats None)
    as [(before & format & after & Hsplit & Hb & Hs & Hsel) | [Hall Hsel]].
  - left. exists before, format, after. auto.
  - right. auto.
Qed.

Lemma startRecording_selects_first_supported_witness :
  streamRef (state (Sample.start Sample.idle)) = Some (mkStream 2)
  /\ exists options,
      log (snd (startRecording
                  (Sample.platform (fun f => eqb f (lit "video/mp4")
                                             || eqb f (lit "video/ogg"))
                     (Throw Sample.typeError))
                  (Sample.start Sample.idle)))
      = [MediaRecorderStart options].
Proof.
  assert (H : streamRef (state (Sample.start Sample.idle)) = Some (mkStream 2))
    by reflexivity.
  split; [exact H |].
  destruct (startRecording_selects_first_supported
              (Sample.platform (fun f => eqb f (lit "video/mp4")
                                         || eqb f (lit "video/ogg"))
                 (Throw Sample.typeError))
              (Sample.start Sample.idle) (mkStream 2) H)
    as (_ & options & Hlog & _ & _).
  exists options. exact Hlog.
Defined.

(** The same platform, evaluated: [video/mp4] is the first supported format. *)
Example startRecording_picks_mp4 :
  log (snd (startRecording
              (Sample.platform (fun f => eqb f (lit "video/mp4")
                                         || eqb f (lit "video/ogg"))
                 (Throw Sample.typeError))
              (Sample.start Sample.idle)))
  = [MediaRecorderStart (Some (lit "video/mp4"))].
Proof. reflexivity. Qed.

End RecorderSpec.

(* ===================================================================== *)
(** * Properties of the dashboard *)
(* ===================================================================== *)

Module DashboardFacts.

Import Js Platform Api Dashboard Notions JsFacts ApiFacts.

#[local] Arguments lit : simpl never.
#[local] Arguments eqb : simpl never.
#[local] Arguments toString : simpl never.
#[local] Arguments ApiService.uploadVideoForAnalysis : simpl never.
#[local] Arguments Qdiv : simpl never.

Lemma mapM_reviewIfNow (env : Env) (l : list Report) (w : World State) :
  mapM reviewIfNow l env w
  = (Return (sweep env (ticks w) l),
     mkWorld (state w) (length l + ticks w) (log w)).
Proof.
  revert w. induction l as [| report l IH]; intros [s t lg].
  - reflexivity.
  - cbn [mapM]. unfold bind at 1. unfold reviewIfNow at 1. run_async.
    rewrite IH. cbn. rewrite Nat.add_succ_r. reflexivity.
Qed.

#[local] Arguments mapM : simpl never.

Lemma handleVideoSubmit_run (env : Env) (w : World State)
    (videoBlob : Blob) (description : JsString) :
  let tempReport :=
    newTempReport (clock env (ticks w)) (clock env (S (ticks w)))
      videoBlob description in
  let prev := reports (state w) in
  let answer := network env (S (S (ticks w))) (attemptRequest videoBlob description) in
  let run := handleVideoSubmit videoBlob description env w in
  fst run = Return tt
  /\ isLoading (state (snd run)) = false
  /\ reports (state (snd run))
     = match attemptCompletion videoBlob answer with
       | Return response =>
           if VideoAnalysis.success response
           then replaceById tempReport (newUpdatedReport tempReport response)
                  (tempReport :: prev)
           else reviewById tempReport (tempReport :: prev)
       | Throw _ =>
           sweep env
             (if size videoBlob =? 0 then (2 + ticks w)%nat
              else (3 + ticks w)%nat)
             (tempReport :: prev)
       end.
Proof.
  intros tempReport prev answer run. subst run prev answer tempReport.
  destruct w as [s t lg]. cbn [ticks state].
  unfold handleVideoSubmit. run_async.
  unfold attemptCompletion, attemptRequest.
  destruct (Z.eqb_spec (size videoBlob) 0) as [Hz | Hnz].
  - rewrite upload_invalid by (right; eauto).
    rewrite mapM_reviewIfNow. cbn. auto.
  - match goal with
    | |- context [ApiService.uploadVideoForAnalysis ?u ?b ?d ?e ?w0] =>
        destruct (upload_valid u e w0 videoBlob d Hnz) as (rest & -> & _)
    end.
    cbn [ticks].
    destruct (uploadCompletion _) as [response | e].
    + destruct (VideoAnalysis.success response); cbn; auto.
    + rewrite mapM_reviewIfNow. cbn. auto.
Qed.

(** The completion of the upload that an attempt makes. *)
Lemma upload_completion {St : Type} (env : Env) (u : World St)
    (videoBlob : Blob) (description : JsString) :
  fst (ApiService.uploadVideoForAnalysis ApiService.API_BASE_URL
         (Some videoBlob) description env u)
  = attemptCompletion videoBlob
      (network env (ticks u) (attemptRequest videoBlob description)).
Proof.
  unfold attemptCompletion, attemptRequest.
  destruct (Z.eqb_spec (size videoBlob) 0) as [Hz | Hnz].
  - rewrite upload_invalid by (right; eauto). reflexivity.
  - destruct (upload_valid ApiService.API_BASE_URL env u videoBlob description Hnz)
      as (rest & -> & _).
    reflexivity.
Qed.

(** ** What the three updaters do to a list *)

Lemma withStatus_same (r : Report) : withStatus (status r) r = r.
Proof. destruct r; reflexivity. Qed.

Lemma statusOnly_refl (r : Report) : statusOnly r r.
Proof. unfold statusOnly. rewrite withStatus_same. reflexivity. Qed.

Lemma statusOnly_withStatus (v : Status) (r : Report) :
  statusOnly r (withStatus v r).
Proof. reflexivity. Qed.

Lemma statusOnly_trans (a b c : Report) :
  statusOnly a b -> statusOnly b c -> statusOnly a c.
Proof.
  unfold statusOnly. intros Hab Hbc. rewrite Hbc at 1. rewrite Hab.
  reflexivity.
Qed.

Lemma statusOnly_sameIdentity (r r' : Report) :
  statusOnly r r' -> sameIdentity r r'.
Proof. unfold statusOnly. intros ->. repeat split. Qed.

Lemma sameId_trans (a b c : Report) : sameId a b -> sameId b c -> sameId a c.
Proof. unfold sameId. congruence. Qed.

Lemma Forall2_trans {A} (P : A -> A -> Prop)
    (Ptrans : forall a b c, P a b -> P b c -> P a c) (l1 l2 l3 : list A) :
  Forall2 P l1 l2 -> Forall2 P l2 l3 -> Forall2 P l1 l3.
Proof.
  intros H12. revert l3.
  induction H12 as [| a b l1 l2 Hab _ IH]; intros l3 H23; inversion H23; subst.
  - constructor.
  - constructor; eauto.
Qed.

Lemma Forall2_same {A} (P : A -> A -> Prop) (l : list A) :
  (forall a, P a a) -> Forall2 P l l.
Proof. intros HP. induction l; constructor; auto. Qed.

Section Updaters.
Variables tempReport updatedReport : Report.

Lemma replaceById_head (prev : list Report) :
  replaceById tempReport updatedReport (tempReport :: prev)
  = updatedReport :: replaceById tempReport updatedReport prev.
Proof. unfold replaceById. cbn [map]. rewrite eqb_refl. reflexivity. Qed.

Lemma reviewById_head (prev : list Report) :
  reviewById tempReport (tempReport :: prev)
  = withStatus reviewing tempReport :: reviewById tempReport prev.
Proof. unfold reviewById. cbn [map]. rewrite eqb_refl. reflexivity. Qed.

Lemma replaceById_sameId (prev : list Report) :
  id updatedReport = id tempReport ->
  Forall2 sameId prev (replaceById tempReport updatedReport prev).
Proof.
  intros Hid. induction prev as [| r prev IH]; cbn; constructor; trivial.
  unfold sameId. destruct (eqb_spec (id r) (id tempReport)); congruence.
Qed.

Lemma reviewById_statusOnly (prev : list Report) :
  Forall2 statusOnly prev (reviewById tempReport prev).
Proof.
  induction prev as [| r prev IH]; cbn; constructor; trivial.
  destruct (eqb (id r) (id tempReport));
    [apply statusOnly_withStatus | apply statusOnly_refl].
Qed.

(** With a fresh id, the two updaters that match on it leave every older
    report alone. *)
Lemma replaceById_fresh (prev : list Report) :
  ~ In (id tempReport) (map id prev) ->
  replaceById tempReport updatedReport prev = prev.
Proof.
  unfold replaceById.
  induction prev as [| r prev IH]; cbn [map In]; trivial.
  intros H. rewrite eqb_neq by (intros E; apply H; left; congruence).
  rewrite IH by tauto. reflexivity.
Qed.

Lemma reviewById_fresh (prev : list Report) :
  ~ In (id tempReport) (map id prev) ->
  reviewById tempReport prev = prev.
Proof.
  unfold reviewById.
  induction prev as [| r prev IH]; cbn [map In]; trivial.
  intros H. rewrite eqb_neq by (intros E; apply H; left; congruence).
  rewrite IH by tauto. reflexivity.
Qed.

End Updaters.

Lemma sweep_statusOnly (env : Env) (n : nat) (l : list Report) :
  Forall2 statusOnly l (sweep env n l).
Proof.
  revert n. induction l as [| r l IH]; intros n; cbn; constructor; trivial.
  destruct (eqb (id r) (toString (clock env n)));
    [apply statusOnly_withStatus | apply statusOnly_refl].
Qed.

Lemma Forall2_weaken {A} (P Q : A -> A -> Prop) (l l' : list A) :
  (forall a b, P a b -> Q a b) -> Forall2 P l l' -> Forall2 Q l l'.
Proof. intros HPQ. induction 1; constructor; auto. Qed.

Lemma statusOnly_sameId (r r' : Report) : statusOnly r r' -> sameId r r'.
Proof. intros H. exact (proj1 (statusOnly_sameIdentity r r' H)). Qed.

(** The catch block misses the report of its own attempt as soon as the
    clock has moved since the id was drawn. *)
Lemma sweep_misses (env : Env) (n : nat) (now date : Z) (videoBlob : Blob)
    (description : JsString) (prev : list Report) :
  clock env n <> now ->
  exists olds,
    sweep env n (newTempReport now date videoBlob description :: prev)
    = newTempReport now date videoBlob description :: olds.
Proof.
  intros Hclock. cbn [sweep]. eexists.
  rewrite eqb_neq; [reflexivity |].
  cbn [id newTempReport]. intros H. apply toString_inj in H. congruence.
Qed.

(** One attempt: the list gains exactly one report at the front, which
    carries the identity of the temporary report; the older reports keep
    their ids, and with a fresh id they change in status at most. *)
Lemma attempt_step (env : Env) (w : World State) (videoBlob : Blob)
    (description : JsString) :
  let tempReport :=
    newTempReport (clock env (ticks w)) (clock env (S (ticks w)))
      videoBlob description in
  exists new olds,
    reports (state (snd (handleVideoSubmit videoBlob description env w)))
    = new :: olds
    /\ sameIdentity tempReport new
    /\ Forall2 sameId (reports (state w)) olds
    /\ (~ In (nextId env w) (map id (reports (state w))) ->
        Forall2 statusOnly (reports (state w)) olds).
Proof.
  intros tempReport.
  destruct (handleVideoSubmit_run env w videoBlob description) as (_ & _ & ->).
  fold tempReport.
  destruct (attemptCompletion _ _) as [response | e].
  - destruct (VideoAnalysis.success response).
    + rewrite replaceById_head. do 2 eexists. split; [reflexivity |].
      split; [repeat split |]. split.
      * apply replaceById_sameId. reflexivity.
      * intros Hfresh. rewrite replaceById_fresh by exact Hfresh.
        apply Forall2_same, statusOnly_refl.
    + rewrite reviewById_head. do 2 eexists. split; [reflexivity |].
      split; [repeat split |]. split.
      * eapply Forall2_weaken; [exact statusOnly_sameId |].
        apply reviewById_statusOnly.
      * intros _. apply reviewById_statusOnly.
  - pose proof (sweep_statusOnly env
        (if size videoBlob =? 0 then (2 + ticks w)%nat else (3 + ticks w)%nat)
        (tempReport :: reports (state w))) as Hsweep.
    destruct (sweep env _ (tempReport :: reports (state w))) as [| new olds];
      inversion Hsweep; subst.
    do 2 eexists. split; [reflexivity |].
    split; [apply statusOnly_sameIdentity; assumption |]. split.
    + eapply Forall2_weaken; [exact statusOnly_sameId | assumption].
    + intros _. assumption.
Qed.

End DashboardFacts.

Module DashboardSpec.

Import Js Platform Api Dashboard Notions JsFacts ApiFacts DashboardFacts.

#[local] Arguments lit : simpl never.
#[local] Arguments eqb : simpl never.
#[local] Arguments toString : simpl never.
#[local] Arguments Qdiv : simpl never.

Lemma grows_length P n prev next :
  grows P n prev next -> length next = (n + length prev)%nat.
Proof.
  intros (added & olds & -> & <- & H).
  rewrite length_app, (Forall2_length H). reflexivity.
Qed.

Lemma grows_step (P : Report -> Report -> Prop)
    (Ptrans : forall a b c, P a b -> P b c -> P a c)
    n prev mid new olds :
  grows P n prev mid -> Forall2 P mid olds ->
  grows P (S n) prev (new :: olds).
Proof.
  intros (added & olds1 & -> & <- & Hprev) Hmid.
  apply Forall2_app_inv_l in Hmid as (a2 & o2 & Ha & Ho & ->).
  exists (new :: a2), o2. split; [reflexivity |]. split.
  - cbn. rewrite (Forall2_length Ha). reflexivity.
  - eapply Forall2_trans; eassumption.
Qed.

(** C1.  When the upload of an attempt returns a result with
    [success = true], the report at the head of the list after the attempt
    has status [completed], its [analysis] and [analysisDate] are those of
    the result's data, and its [id], [description], [submittedAt] and
    [videoSize] are those of the temporary report, which was created with
    status [pending] and was at the head of the list during the upload. *)
Theorem successful_analysis_completes_report :
  forall (env : Env) (w : World State) (videoBlob : Blob)
         (description : JsString) (response : VideoAnalysisResponse),
    let tempReport :=
      newTempReport (clock env (ticks w)) (clock env (S (ticks w)))
        videoBlob description in
    fst (ApiService.uploadVideoForAnalysis ApiService.API_BASE_URL
           (Some videoBlob) description env
           (pendingWorld env w videoBlob description))
    = Return response ->
    VideoAnalysis.success response = true ->
    status tempReport = pending
    /\ reports (state (pendingWorld env w videoBlob description))
       = tempReport :: reports (state w)
    /\ exists merged rest,
        reports (state (snd (handleVideoSubmit videoBlob description env w)))
        = merged :: rest
        /\ status merged = completed
        /\ analysis merged
           = Some (VideoAnalysis.analysis (VideoAnalysis.data response))
        /\ analysisDate merged
           = Some (VideoAnalysis.analysisDate (VideoAnalysis.data response))
        /\ id merged = id tempReport
        /\ Api.description merged = Api.description tempReport
        /\ submittedAt merged = submittedAt tempReport
        /\ videoSize merged = videoSize tempReport.
Proof.
  intros env w videoBlob description response tempReport Hupload Hsuccess.
  split; [reflexivity |]. split; [reflexivity |].
  rewrite upload_completion in Hupload. cbn [ticks pendingWorld] in Hupload.
  destruct (handleVideoSubmit_run env w videoBlob description) as (_ & _ & ->).
  rewrite Hupload, Hsuccess. fold tempReport. rewrite replaceById_head.
  do 2 eexists. split; [reflexivity |]. repeat split.
Qed.

Lemma successful_analysis_completes_report_witness :
  fst (ApiService.uploadVideoForAnalysis ApiService.API_BASE_URL
         (Some Sample.oneByte) (lit "leak") (Sample.answering 200 None true)
         (pendingWorld (Sample.answering 200 None true)
            (Sample.start Sample.emptyPage) Sample.oneByte (lit "leak")))
  = Return (Sample.analysisOf true)
  /\ VideoAnalysis.success (Sample.analysisOf true) = true
  /\ exists merged rest,
      reports (state (snd (handleVideoSubmit Sample.oneByte (lit "leak")
                             (Sample.answering 200 None true)
                             (Sample.start Sample.emptyPage))))
      = merged :: rest
      /\ status merged = completed.
Proof.
  assert (H1 : fst (ApiService.uploadVideoForAnalysis ApiService.API_BASE_URL
                      (Some Sample.oneByte) (lit "leak")
                      (Sample.answering 200 None true)
                      (pendingWorld (Sample.answering 200 None true)
                         (Sample.start Sample.emptyPage) Sample.oneByte
                         (lit "leak")))
               = Return (Sample.analysisOf true)) by reflexivity.
  assert (H2 : VideoAnalysis.success (Sample.analysisOf true) = true)
    by reflexivity.
  split; [exact H1 | split; [exact H2 |]].
  destruct (successful_analysis_completes_report
              (Sample.answering 200 None true) (Sample.start Sample.emptyPage)
              Sample.oneByte (lit "leak") (Sample.analysisOf true) H1 H2)
    as (_ & _ & merged & rest & Hlist & Hstatus & _).
  exists merged, rest. split; assumption.
Defined.

(** The half of C2 that the code keeps: when the upload returns a result
    with [success = false], the temporary report is at the head of the list
    with status [reviewing], and the older reports changed in status at
    most. *)
Lemma unsuccessful_analysis_marks_reviewing
    (env : Env) (w : World State) (videoBlob : Blob) (description : JsString)
    (response : VideoAnalysisResponse) :
  let tempReport :=
    newTempReport (clock env (ticks w)) (clock env (S (ticks w)))
      videoBlob description in
  fst (ApiService.uploadVideoForAnalysis ApiService.API_BASE_URL
         (Some videoBlob) description env
         (pendingWorld env w videoBlob description))
  = Return response ->
  VideoAnalysis.success response = false ->
  exists olds,
    reports (state (snd (handleVideoSubmit videoBlob description env w)))
    = withStatus reviewing tempReport :: olds
    /\ Forall2 statusOnly (reports (state w)) olds.
Proof.
  intros tempReport Hupload Hsuccess.
  rewrite upload_completion in Hupload. cbn [ticks pendingWorld] in Hupload.
  destruct (handleVideoSubmit_run env w videoBlob description) as (_ & _ & ->).
  rewrite Hupload, Hsuccess. fold tempReport. rewrite reviewById_head.
  eexists. split; [reflexivity | apply reviewById_statusOnly].
Qed.

(** The other half fails in general: when the upload throws and the clock
    reading of the catch block differs from the one the id was made of, the
    temporary report stays at the head of the list as it was created, with
    status [pending]. *)
Lemma thrown_upload_leaves_pending
    (env : Env) (w : World State) (videoBlob : Blob) (description : JsString)
    (e : Exn) :
  let tempReport :=
    newTempReport (clock env (ticks w)) (clock env (S (ticks w)))
      videoBlob description in
  fst (ApiService.uploadVideoForAnalysis ApiService.API_BASE_URL
         (Some videoBlob) description env
         (pendingWorld env w videoBlob description))
  = Throw e ->
  clock env (if size videoBlob =? 0 then (2 + ticks w)%nat
             else (3 + ticks w)%nat)
  <> clock env (ticks w) ->
  exists olds,
    reports (state (snd (handleVideoSubmit videoBlob description env w)))
    = tempReport :: olds
    /\ status tempReport = pending.
Proof.
  intros tempReport Hupload Hclock.
  rewrite upload_completion in Hupload. cbn [ticks pendingWorld] in Hupload.
  destruct (handleVideoSubmit_run env w videoBlob description) as (_ & _ & ->).
  rewrite Hupload.
  destruct (sweep_misses env _ _ (clock env (S (ticks w))) videoBlob
              description (reports (state w)) Hclock) as (olds & ->).
  exists olds. split; reflexivity.
Qed.

(** C2 fails on the code.  The network is down, so the upload throws; the
    id was made of the clock reading 1000 and the catch block compares ids
    with the reading 1003: the report of the attempt is still [pending]
    afterwards. *)
Theorem failed_upload_report_still_pending :
  reports (state (snd (handleVideoSubmit Sample.oneByte (lit "leak")
                         Sample.offline (Sample.start Sample.emptyPage))))
  = [ {| id := lit "1000";
         description := lit "leak";
         status := pending;
         submittedAt := 1001;
         videoSize := (inject_Z 1 / inject_Z 1048576)%Q;
         analysis := None;
         analysisDate := None |} ]
  /\ fst (ApiService.uploadVideoForAnalysis ApiService.API_BASE_URL
            (Some Sample.oneByte) (lit "leak") Sample.offline
            (pendingWorld Sample.offline (Sample.start Sample.emptyPage)
               Sample.oneByte (lit "leak")))
     = Throw Sample.typeError.
Proof. split; reflexivity. Qed.

(** C10, as stated, fails.  The clock reads 1000 at both attempts, so both
    reports get the id [1000]; the second attempt succeeds and its updater
    replaces both of them by its completed report: the report of the first
    attempt does not keep its description. *)
Lemma colliding_ids_rewrite_older_report :
  let w1 := snd (handleVideoSubmit Sample.oneByte (lit "leak")
                   (Sample.frozen true) (Sample.start Sample.emptyPage)) in
  let w2 := snd (handleVideoSubmit Sample.oneByte (lit "crack")
                   (Sample.frozen true) w1) in
  mounted (Sample.start Sample.emptyPage)
  /\ session 1 (Sample.start Sample.emptyPage) w1
  /\ session 1 w1 w2
  /\ map Api.description (reports (state w1)) = [lit "leak"]
  /\ map Api.description (reports (state w2)) = [lit "crack"; lit "crack"]
  /\ ~ grows sameIdentity 1 (reports (state w1)) (reports (state w2)).
Proof.
  intros w1 w2.
  split; [reflexivity |].
  split; [apply session_submit, session_nil |].
  split; [apply session_submit, session_nil |].
  split; [reflexivity |]. split; [reflexivity |].
  intros (added & olds & Hsplit & Hlen & Holds).
  destruct added as [| a [| a' added]]; try discriminate Hlen.
  inversion Holds as [| r r' l l' Hr Hl Hprev Hnext]; subst.
  inversion Hl; subst.
  injection Hsplit as _ <-.
  destruct Hr as (_ & Hdesc & _). discriminate Hdesc.
Qed.

(** C10, amended.  The reports list is written only by the submission
    handler.  Each attempt adds exactly one report at the front, which
    carries the id, description, submittedAt and videoSize of the
    temporary report created with status [pending]; no report is ever
    removed, so after [n] attempts the list is [n] longer, and every
    earlier report is still at its place with its id.  In a session whose
    attempts each draw an id that no report of the list has yet, every
    earlier report is moreover unchanged up to its status: its description,
    submittedAt, videoSize, analysis and analysisDate stay as they were;
    and an attempt with such an id whose upload returns replaces the report
    of the attempt only, all earlier reports being left as they are. *)
Theorem reports_grow_and_keep_identity :
  (forall (env : Env) (w : World State) (videoBlob : Blob)
          (description : JsString),
      let tempReport :=
        newTempReport (clock env (ticks w)) (clock env (S (ticks w)))
          videoBlob description in
      status tempReport = pending
      /\ exists new olds,
          reports (state (snd (handleVideoSubmit videoBlob description env w)))
          = new :: olds
          /\ sameIdentity tempReport new
          /\ Forall2 sameId (reports (state w)) olds)
  /\ (forall (n : nat) (w w' : World State),
         session n w w' ->
         grows sameId n (reports (state w)) (reports (state w'))
         /\ length (reports (state w')) = (n + length (reports (state w)))%nat)
  /\ (forall (n : nat) (w w' : World State),
         freshSession n w w' ->
         grows statusOnly n (reports (state w)) (reports (state w'))
         /\ grows sameIdentity n (reports (state w)) (reports (state w')))
  /\ (forall (env : Env) (w : World State) (videoBlob : Blob)
             (description : JsString) (response : VideoAnalysisResponse),
         fst (ApiService.uploadVideoForAnalysis ApiService.API_BASE_URL
                (Some videoBlob) description env
                (pendingWorld env w videoBlob description))
         = Return response ->
         ~ In (nextId env w) (map id (reports (state w))) ->
         exists new,
           reports (state (snd (handleVideoSubmit videoBlob description env w)))
           = new :: reports (state w)).
Proof.
  split; [| split; [| split]].
  - intros env w videoBlob description tempReport.
    split; [reflexivity |].
    destruct (attempt_step env w videoBlob description)
      as (new & olds & Hlist & Hnew & Hids & _).
    exists new, olds. auto.
  - intros n w w' Hsession.
    assert (Hgrows : grows sameId n (reports (state w)) (reports (state w'))).
    { induction Hsession as [w | n w w' env videoBlob description _ IH].
      - exists [], (reports (state w)). repeat split.
        apply Forall2_same. reflexivity.
      - destruct (attempt_step env w' videoBlob description)
          as (new & olds & -> & _ & Hids & _).
        exact (grows_step sameId sameId_trans _ _ _ new olds IH Hids). }
    split; [exact Hgrows | exact (grows_length _ _ _ _ Hgrows)].
  - intros n w w' Hsession.
    assert (Hgrows : grows statusOnly n (reports (state w)) (reports (state w'))).
    { induction Hsession as [w | n w w' env videoBlob description _ IH Hfresh].
      - exists [], (reports (state w)). repeat split.
        apply Forall2_same, statusOnly_refl.
      - destruct (attempt_step env w' videoBlob description)
          as (new & olds & -> & _ & _ & Hkeep).
        exact (grows_step statusOnly statusOnly_trans _ _ _ new olds IH
                 (Hkeep Hfresh)). }
    split; [exact Hgrows |].
    destruct Hgrows as (added & olds & Hsplit & Hlen & Holds).
    exists added, olds. repeat split; trivial.
    eapply Forall2_weaken; [exact statusOnly_sameIdentity | exact Holds].
  - intros env w videoBlob description response Hupload Hfresh.
    rewrite upload_completion in Hupload. cbn [ticks pendingWorld] in Hupload.
    destruct (handleVideoSubmit_run env w videoBlob description) as (_ & _ & ->).
    rewrite Hupload.
    destruct (VideoAnalysis.success response).
    + rewrite replaceById_head, replaceById_fresh by exact Hfresh.
      eexists. reflexivity.
    + rewrite reviewById_head, reviewById_fresh by exact Hfresh.
      eexists. reflexivity.
Qed.

Lemma reports_grow_and_keep_identity_witness :
  let w1 := snd (handleVideoSubmit Sample.oneByte (lit "leak")
                   (Sample.answering 200 None true)
                   (Sample.start Sample.emptyPage)) in
  let w2 := snd (handleVideoSubmit Sample.oneByte (lit "crack")
                   (Sample.answering 200 None true) w1) in
  freshSession 1 w1 w2
  /\ grows sameIdentity 1 (reports (state w1)) (reports (state w2)).
Proof.
  intros w1 w2.
  assert (H : freshSession 1 w1 w2).
  { apply fresh_submit; [apply fresh_nil |].
    vm_compute. intros [E | []]. discriminate E. }
  split; [exact H |].
  exact (proj2 (proj1 (proj2 (proj2 reports_grow_and_keep_identity))
                  1%nat w1 w2 H)).
Defined.

End DashboardSpec.

(* ===================================================================== *)
(** * Further properties of the HTTP client *)
(* ===================================================================== *)

Module TextFacts.

Import Js JsText.

Lemma startsWith_spec (pat s : JsString) :
  startsWith pat s = true <-> exists post, s = pat ++ post.
Proof.
  revert s. induction pat as [| p pat IH]; intros s; simpl.
  - split; [intros _; exists s; reflexivity | destruct s; reflexivity].
  - destruct s as [| c s].
    + split; [discriminate | intros (post & H); discriminate H].
    + rewrite andb_true_iff, N.eqb_eq, IH. split.
      * intros (-> & post & ->). exists post. reflexivity.
      * intros (post & H). injection H as -> ->. split; [reflexivity | eauto].
Qed.

Lemma startsWith_false (pat s : JsString) :
  startsWith pat s = false -> forall post, s <> pat ++ post.
Proof.
  intros H post E.
  assert (startsWith pat s = true) by (apply startsWith_spec; eauto).
  congruence.
Qed.

Lemma includes_spec (pat s : JsString) :
  includes pat s = true <-> exists pre post, s = pre ++ pat ++ post.
Proof.
  induction s as [| c s IH]; simpl.
  - rewrite startsWith_spec. split.
    + intros (post & H). exists [], post. exact H.
    + intros (pre & post & H). symmetry in H.
      apply app_eq_nil in H as (-> & H). exists post. symmetry. exact H.
  - rewrite orb_true_iff, startsWith_spec, IH. split.
    + intros [(post & H) | (pre & post & H)].
      * exists [], post. exact H.
      * exists (c :: pre), post. rewrite H. reflexivity.
    + intros ([| c' pre] & post & H).
      * left. exists post. exact H.
      * right. injection H as _ H. exists pre, post. exact H.
Qed.

(** [replace] rewrites the first occurrence of the pattern. *)
Lemma replace_first (pat rep post pre s : JsString) :
  s = pre ++ pat ++ post ->
  (forall pre' post', s = pre' ++ pat ++ post' ->
                      (length pre <= length pre')%nat) ->
  replace pat rep s = pre ++ rep ++ post.
Proof.
  revert s. induction pre as [| c pre IH]; intros s Hs Hmin.
  - simpl in Hs. destruct s as [| c s]; simpl.
    + symmetry in Hs. apply app_eq_nil in Hs as (-> & ->).
      simpl. rewrite app_nil_r. reflexivity.
    + assert (startsWith pat (c :: s) = true) as ->
        by (apply startsWith_spec; eauto).
      rewrite Hs, skipn_app, skipn_all, Nat.sub_diag. reflexivity.
  - subst s. simpl.
    destruct (startsWith pat (c :: pre ++ pat ++ post)) eqn:Hstart.
    + apply startsWith_spec in Hstart as (post' & H).
      specialize (Hmin [] post' H). simpl in Hmin. lia.
    + f_equal. apply IH; [reflexivity |].
      intros pre' post' H.
      specialize (Hmin (c :: pre') post'). simpl in Hmin.
      rewrite H in Hmin. specialize (Hmin eq_refl). lia.
Qed.

Lemma replace_absent (pat rep s : JsString) :
  (forall pre post, s <> pre ++ pat ++ post) -> replace pat rep s = s.
Proof.
  induction s as [| c s IH]; intros Habs; simpl.
  - destruct (startsWith pat []) eqn:Hstart; [| reflexivity].
    apply startsWith_spec in Hstart as (post & H).
    exfalso. exact (Habs [] post H).
  - destruct (startsWith pat (c :: s)) eqn:Hstart.
    + apply startsWith_spec in Hstart as (post & H).
      exfalso. exact (Habs [] post H).
    + f_equal. apply IH. intros pre post H.
      apply (Habs (c :: pre) post). rewrite H. reflexivity.
Qed.

End TextFacts.

Module ApiExtra.

Import Js Platform JsText ApiService Health.
Import Notions MoreNotions JsFacts ApiFacts TextFacts.

#[local] Arguments lit : simpl never.
#[local] Arguments eqb : simpl never.
#[local] Arguments toString : simpl never.
#[local] Arguments replace : simpl never.

Lemma error_not_abort : eqb (lit "Error") (lit "AbortError") = false.
Proof. reflexivity. Qed.

(** The whole run of a call with usable media. *)
Lemma upload_exact {St : Type} (baseUrl : JsString) (env : Env) (w : World St)
    (b : Blob) (description : JsString) :
  size b <> 0 ->
  let req := analyzeRequest baseUrl (formOf b description) in
  let answer := network env (ticks w) req in
  uploadVideoForAnalysis baseUrl (Some b) description env w
  = (uploadCompletion answer,
     mkWorld (state w) (S (ticks w))
       (log w ++ SetTimeoutAbort 120000 :: Fetch req :: clears answer)).
Proof.
  intros Hb req answer. subst answer. unfold uploadVideoForAnalysis.
  apply Z.eqb_neq in Hb. rewrite Hb.
  assert (Hform :
    append (append [] (lit "video")
              (FormFile (newFile [b] (lit "video.mp4") (lit "video/mp4"))))
      (lit "description") (FormString description) = formOf b description).
  { unfold append, formOf, newFile, newBlob. cbn.
    rewrite app_nil_r, normalizeType_mp4. reflexivity. }
  rewrite Hform. fold req. run_async.
  unfold uploadCompletion, rethrown, clears.
  destruct (network env (ticks w) req) as [r | e]; cbn.
  - destruct (ok r); cbn.
    + destruct (json_rejects r) as [e |]; cbn.
      * destruct (isError e); [destruct (eqb (name e) (lit "AbortError")) |];
          repeat rewrite <- app_assoc; reflexivity.
      * repeat rewrite <- app_assoc; reflexivity.
    + rewrite error_not_abort. repeat rewrite <- app_assoc. reflexivity.
  - destruct (isError e); [destruct (eqb (name e) (lit "AbortError")) |];
      repeat rewrite <- app_assoc; reflexivity.
Qed.

Lemma rethrown_isError (e : Exn) : isError (rethrown e) = true.
Proof.
  unfold rethrown. destruct (isError e) eqn:He; [| reflexivity].
  destruct (eqb (name e) (lit "AbortError")); [reflexivity | exact He].
Qed.




(** X2.  An upload returns a value exactly when its media is present and
    not empty and its request is answered with a 2xx status and a body that
    parses as JSON; the value is then that body, passed on as it is. *)
Theorem upload_returns_iff :
  forall (St : Type) (baseUrl : JsString) (env : Env) (w : World St)
         (videoBlob : option Blob) (description : JsString)
         (result : Api.VideoAnalysisResponse),
    fst (uploadVideoForAnalysis baseUrl videoBlob description env w)
    = Return result
    <-> exists b r,
        videoBlob = Some b /\ size b <> 0
        /\ network env (ticks w) (analyzeRequest baseUrl (formOf b description))
           = Return r
        /\ ok r = true /\ json_rejects r = None /\ result = parsed r.
Proof.
  intros St baseUrl env w videoBlob description result. split.
  - destruct videoBlob as [b |].
    + destruct (Z.eq_dec (size b) 0) as [Hz | Hnz].
      * rewrite upload_invalid by eauto. discriminate.
      * rewrite (upload_exact baseUrl env w b description Hnz). cbn [fst].
        unfold uploadCompletion.
        destruct (network env (ticks w) _) as [r | e] eqn:Hanswer;
          [| discriminate].
        destruct (ok r) eqn:Hok; [| discriminate].
        destruct (json_rejects r) eqn:Hjson; [discriminate |].
        intros H. injection H as <-. exists b, r.
        repeat split; trivial.
    + rewrite upload_invalid by auto. discriminate.
  - intros (b & r & -> & Hnz & Hanswer & Hok & Hjson & ->).
    rewrite (upload_exact baseUrl env w b description Hnz). cbn [fst].
    unfold uploadCompletion. rewrite Hanswer, Hok, Hjson. reflexivity.
Qed.

(** X3.  Whatever an upload throws is an [Error]: a value that is not one
    is replaced by [Network error occurred].  A transport [Error] with a
    name other than [AbortError] is thrown on as it is. *)
Theorem upload_throws_errors_only :
  forall (St : Type) (baseUrl : JsString) (env : Env) (w : World St)
         (videoBlob : option Blob) (description : JsString),
    let run := uploadVideoForAnalysis baseUrl videoBlob description env w in
    (forall e, fst run = Throw e -> isError e = true)
    /\ (forall b e,
          videoBlob = Some b -> size b <> 0 ->
          network env (ticks w) (analyzeRequest baseUrl (formOf b description))
          = Throw e ->
          (isError e = false -> fst run = Throw networkError)
          /\ (isError e = true -> name e <> lit "AbortError" ->
              fst run = Throw e)).
Proof.
  intros St baseUrl env w videoBlob description run. subst run. split.
  - intros e. destruct videoBlob as [b |].
    + destruct (Z.eq_dec (size b) 0) as [Hz | Hnz].
      * rewrite upload_invalid by eauto. intros H. injection H as <-.
        reflexivity.
      * rewrite (upload_exact baseUrl env w b description Hnz). cbn [fst].
        unfold uploadCompletion.
        destruct (network env (ticks w) _) as [r | e'].
        -- destruct (ok r); [destruct (json_rejects r); [| discriminate] |];
             intros H; injection H as <-; apply rethrown_isError.
        -- intros H; injection H as <-; apply rethrown_isError.
    + rewrite upload_invalid by auto. intros H. injection H as <-.
      reflexivity.
  - intros b e -> Hnz Hanswer.
    rewrite (upload_exact baseUrl env w b description Hnz). cbn [fst].
    rewrite Hanswer. cbn. unfold rethrown. split.
    + intros ->. reflexivity.
    + intros -> Hname. rewrite eqb_neq by exact Hname. reflexivity.
Qed.

Lemma upload_throws_errors_only_witness :
  size Sample.oneByte <> 0
  /\ name Sample.typeError <> lit "AbortError"
  /\ fst (uploadVideoForAnalysis API_BASE_URL (Some Sample.oneByte) (lit "leak")
            Sample.offline (Sample.start tt))
     = Throw Sample.typeError.
Proof.
  assert (H1 : size Sample.oneByte <> 0) by discriminate.
  assert (H2 : name Sample.typeError <> lit "AbortError") by discriminate.
  split; [exact H1 | split; [exact H2 |]].
  destruct (upload_throws_errors_only unit API_BASE_URL Sample.offline
              (Sample.start tt) (Some Sample.oneByte) (lit "leak"))
    as (_ & Htransport).
  exact (proj2 (Htransport Sample.oneByte Sample.typeError eq_refl H1 eq_refl)
           eq_refl H2).
Defined.

(** X4.  An upload that arms its abort timer always clears it: after the
    request has settled the log holds one [clearTimeout], or two when the
    [catch] block runs after a response had arrived, and nothing else; the
    call makes exactly one platform query and leaves the caller's state
    alone. *)
Theorem upload_clears_timer :
  forall (St : Type) (baseUrl : JsString) (env : Env) (w : World St)
         (b : Blob) (description : JsString),
    size b <> 0 ->
    let run := uploadVideoForAnalysis baseUrl (Some b) description env w in
    exists req rest,
      log (snd run) = log w ++ SetTimeoutAbort 120000 :: Fetch req :: rest
      /\ (rest = [ClearTimeout] \/ rest = [ClearTimeout; ClearTimeout])
      /\ ticks (snd run) = S (ticks w)
      /\ state (snd run) = state w.
Proof.
  intros St baseUrl env w b description Hb run. subst run.
  rewrite (upload_exact baseUrl env w b description Hb). cbn [snd log ticks state].
  do 2 eexists. split; [reflexivity |]. split; [| split; reflexivity].
  unfold clears.
  destruct (network env (ticks w) _) as [r | e]; [| auto].
  destruct (ok r); [destruct (json_rejects r) |]; auto.
Qed.

Lemma upload_clears_timer_witness :
  size Sample.oneByte <> 0
  /\ exists req rest,
      log (snd (uploadVideoForAnalysis API_BASE_URL (Some Sample.oneByte)
                  (lit "leak") Sample.offline (Sample.start tt)))
      = [] ++ SetTimeoutAbort 120000 :: Fetch req :: rest
      /\ (rest = [ClearTimeout] \/ rest = [ClearTimeout; ClearTimeout]).
Proof.
  assert (H : size Sample.oneByte <> 0) by discriminate.
  split; [exact H |].
  destruct (upload_clears_timer unit API_BASE_URL Sample.offline
              (Sample.start tt) Sample.oneByte (lit "leak") H)
    as (req & rest & Hlog & Hrest & _).
  exists req, rest. split; assumption.
Defined.

(** X5.  [testConnection] makes exactly one request and nothing else: a GET
    to [baseUrl/videos/test-gemini] with a JSON content-type header, no
    body and no abort signal; it arms no timer and leaves the caller's
    state alone. *)
Theorem testConnection_one_request :
  forall (St : Type) (baseUrl : JsString) (env : Env) (w : World St),
    let run := testConnection baseUrl env w in
    snd run
    = mkWorld (state w) (S (ticks w)) (log w ++ [Fetch (testRequest baseUrl)])
    /\ url (testRequest baseUrl) = baseUrl ++ lit "/videos/test-gemini"
    /\ method (testRequest baseUrl) = lit "GET"
    /\ body (testRequest baseUrl) = None
    /\ signal (testRequest baseUrl) = false.
Proof.
  intros St baseUrl env w run. subst run.
  split; [| repeat split].
  unfold testConnection. run_async.
  destruct (network env (ticks w) (testRequest baseUrl)) as [r | e]; cbn;
    [| reflexivity].
  destruct (ok r); cbn; [| reflexivity].
  destruct (json_rejects r); reflexivity.
Qed.

(** X6.  [getHealth] makes one GET and, unlike [testConnection], hands
    every failure to its caller: it throws what the request throws and what
    the JSON parse throws.  It does not look at the status: any response
    whose body parses makes it resolve. *)
Theorem getHealth_propagates :
  forall (St : Type) (baseUrl : JsString) (env : Env) (w : World St),
    let run := getHealth baseUrl env w in
    let answer := network env (ticks w) (healthRequest baseUrl) in
    snd run
    = mkWorld (state w) (S (ticks w)) (log w ++ [Fetch (healthRequest baseUrl)])
    /\ (forall e, answer = Throw e -> fst run = Throw e)
    /\ (forall r e, answer = Return r -> json_rejects r = Some e ->
                    fst run = Throw e)
    /\ (forall r, answer = Return r -> json_rejects r = None ->
                  fst run = Return r).
Proof.
  intros St baseUrl env w run answer. subst run answer.
  unfold getHealth. run_async.
  destruct (network env (ticks w) (healthRequest baseUrl)) as [r | e]; cbn.
  - destruct (json_rejects r) as [e |] eqn:Hjson; cbn;
      (split; [reflexivity |]); repeat split; intros; congruence.
  - split; [reflexivity |]. repeat split; intros; congruence.
Qed.

Lemma getHealth_propagates_witness :
  network (Sample.answering 500 None false) 0 (healthRequest API_BASE_URL)
  = Return (mkHttpResponse 500 None None (Sample.analysisOf false))
  /\ fst (getHealth API_BASE_URL (Sample.answering 500 None false)
            (Sample.start tt))
     = Return (mkHttpResponse 500 None None (Sample.analysisOf false)).
Proof.
  split; [reflexivity |].
  destruct (getHealth_propagates unit API_BASE_URL
              (Sample.answering 500 None false) (Sample.start tt))
    as (_ & _ & _ & Hok).
  apply Hok; reflexivity.
Defined.

(** X7.  The health URL is the base URL with the first occurrence of
    [/api] removed, followed by [/health]; wherever that occurrence is, not
    only at the end.  A base URL without [/api] is used as it is. *)
Theorem healthRequest_url :
  forall (baseUrl : JsString),
    (forall pre post,
        baseUrl = pre ++ lit "/api" ++ post ->
        (forall pre' post', baseUrl = pre' ++ lit "/api" ++ post' ->
                            (length pre <= length pre')%nat) ->
        url (healthRequest baseUrl) = pre ++ post ++ lit "/health")
    /\ ((forall pre post, baseUrl <> pre ++ lit "/api" ++ post) ->
        url (healthRequest baseUrl) = baseUrl ++ lit "/health").
Proof.
  intros baseUrl. split.
  - intros pre post Hsplit Hmin. cbn [url healthRequest].
    rewrite (replace_first (lit "/api") [] post pre baseUrl Hsplit Hmin).
    cbn [app]. rewrite <- app_assoc. reflexivity.
  - intros Habs. cbn [url healthRequest].
    rewrite (replace_absent (lit "/api") [] baseUrl Habs). reflexivity.
Qed.

Lemma healthRequest_url_witness :
  (API_BASE_URL = lit "https://startup-main.onrender.com" ++ lit "/api" ++ []
   /\ forall pre' post',
        API_BASE_URL = pre' ++ lit "/api" ++ post' ->
        (length (lit "https://startup-main.onrender.com") <= length pre')%nat)
  /\ url (healthRequest API_BASE_URL)
     = lit "https://startup-main.onrender.com" ++ [] ++ lit "/health".
Proof.
  assert (Hfirst : forall pre' post',
             API_BASE_URL = pre' ++ lit "/api" ++ post' ->
             (length (lit "https://startup-main.onrender.com") <= length pre')%nat).
  { intros pre' post' H. vm_compute in H.
    do 33 (destruct pre' as [| ? pre'];
           [discriminate H | injection H as _ H]).
    vm_compute. repeat apply le_n_S. apply Nat.le_0_l. }
  split; [split; [reflexivity | exact Hfirst] |].
  exact (proj1 (healthRequest_url API_BASE_URL)
           (lit "https://startup-main.onrender.com") [] eq_refl Hfirst).
Defined.

End ApiExtra.

(** The first-occurrence rule at work on the deployed base URL and on a
    host whose name starts with [api]. *)
Example healthRequest_deployed :
  Platform.url (Health.healthRequest ApiService.API_BASE_URL)
  = Js.lit "https://startup-main.onrender.com/health".
Proof. reflexivity. Qed.

Example healthRequest_api_host :
  Platform.url (Health.healthRequest (Js.lit "https://api.example.com/api"))
  = Js.lit "https:/.example.com/api/health".
Proof. reflexivity. Qed.

(* ===================================================================== *)
(** * Further properties of the capture controller *)
(* ===================================================================== *)

Module TrimFacts.

Import Js.

Lemma forallb_rev {A} (f : A -> bool) (l : list A) :
  forallb f (rev l) = forallb f l.
Proof.
  induction l as [| a l IH]; simpl; trivial.
  rewrite forallb_app, IH. simpl. rewrite andb_true_r. apply andb_comm.
Qed.

Lemma existsb_negb {A} (f : A -> bool) (l : list A) :
  existsb (fun a => negb (f a)) l = negb (forallb f l).
Proof.
  induction l as [| a l IH]; simpl; trivial.
  rewrite IH, negb_andb. reflexivity.
Qed.

Lemma trimStart_split (s : JsString) :
  exists pre, s = pre ++ trimStart s /\ forallb isWhiteSpace pre = true.
Proof.
  induction s as [| c s (pre & Hs & Hpre)]; simpl.
  - exists []. split; reflexivity.
  - destruct (isWhiteSpace c) eqn:Hc.
    + exists (c :: pre). simpl. rewrite Hc, Hpre, <- Hs. split; reflexivity.
    + exists []. split; reflexivity.
Qed.

Lemma trimStart_head (s r : JsString) (c : N) :
  trimStart s = c :: r -> isWhiteSpace c = false.
Proof.
  induction s as [| a s IH]; simpl; [discriminate |].
  destruct (isWhiteSpace a) eqn:Ha; [exact IH |].
  intros H. injection H as <- _. exact Ha.
Qed.

Lemma trimEnd_split (s : JsString) :
  exists post, s = trimEnd s ++ post /\ forallb isWhiteSpace post = true.
Proof.
  unfold trimEnd. destruct (trimStart_split (rev s)) as (pre & Hs & Hpre).
  exists (rev pre). split.
  - rewrite <- rev_app_distr, <- Hs, rev_involutive. reflexivity.
  - rewrite forallb_rev. exact Hpre.
Qed.

(** A string is its trimmed form between two runs of whitespace. *)
Lemma trim_split (s : JsString) :
  exists pre post,
    s = pre ++ trim s ++ post
    /\ forallb isWhiteSpace pre = true /\ forallb isWhiteSpace post = true.
Proof.
  unfold trim.
  destruct (trimStart_split s) as (pre & Hs & Hpre).
  destruct (trimEnd_split (trimStart s)) as (post & Ht & Hpost).
  exists pre, post. rewrite <- Ht. auto.
Qed.

Lemma trim_first (s r : JsString) (c : N) :
  trim s = c :: r -> isWhiteSpace c = false.
Proof.
  unfold trim. intros H.
  destruct (trimEnd_split (trimStart s)) as (post & Ht & _).
  rewrite H in Ht. simpl in Ht. exact (trimStart_head s _ c Ht).
Qed.

Lemma trim_last (s r : JsString) (c : N) :
  trim s = r ++ [c] -> isWhiteSpace c = false.
Proof.
  unfold trim, trimEnd. intros H.
  apply (f_equal (@rev N)) in H.
  rewrite rev_involutive, rev_app_distr in H. simpl in H.
  exact (trimStart_head _ _ c H).
Qed.

Lemma trim_empty_iff (s : JsString) :
  trim s = [] <-> forallb isWhiteSpace s = true.
Proof.
  split.
  - intros H. destruct (trim_split s) as (pre & post & Hs & Hpre & Hpost).
    rewrite H in Hs. rewrite Hs. simpl. rewrite forallb_app, Hpre, Hpost.
    reflexivity.
  - apply JsFacts.trim_whitespace.
Qed.

(** The guard [!description.trim()] lets a description through exactly when
    it has a character that is not whitespace. *)
Lemma truthy_trim (s : JsString) :
  truthy (trim s) = existsb (fun c => negb (isWhiteSpace c)) s.
Proof.
  rewrite existsb_negb.
  destruct (forallb isWhiteSpace s) eqn:Hall.
  - apply trim_empty_iff in Hall. rewrite Hall. reflexivity.
  - destruct (trim s) eqn:Htrim; [| reflexivity].
    apply trim_empty_iff in Htrim. congruence.
Qed.

End TrimFacts.

Module RecorderExtra.

Import Js Platform JsText VideoRecorder Camera.
Import Notions MoreNotions JsFacts ApiFacts TextFacts TrimFacts RecorderFacts.

#[local] Arguments lit : simpl never.
#[local] Arguments eqb : simpl never.
#[local] Arguments trim : simpl never.

(** The run of a submit that passes the guard. *)
Lemma handleSubmit_valid
    (onVideoSubmit : Blob -> JsString -> Completion unit)
    (env : Env) (w : World State) (blob : Blob) :
  recordedBlob (state w) = Some blob ->
  truthy (trim (description (state w))) = true ->
  exists toast,
    fst (handleSubmit onVideoSubmit env w) = Return tt
    /\ log (snd (handleSubmit onVideoSubmit env w))
       = log w ++ [OnVideoSubmit blob (trim (description (state w))); toast]
    /\ isToast toast = true
    /\ toast <> missingInformation
    /\ (onVideoSubmit blob (trim (description (state w))) = Return tt ->
        toast = Toast (lit "Report Submitted")
                  (lit "Your video report has been submitted successfully!")
                  false
        /\ recordedBlob (state (snd (handleSubmit onVideoSubmit env w))) = None
        /\ recordedVideoUrl (state (snd (handleSubmit onVideoSubmit env w)))
           = None).
Proof.
  destruct w as [s t lg]. cbn [state log]. intros Hblob Hdesc.
  unfold handleSubmit. run_async. rewrite Hblob, Hdesc. cbn.
  destruct (onVideoSubmit blob (trim (description s))) as [[] | e]; cbn;
    rewrite <- app_assoc; cbn;
    (eexists; split; [reflexivity |]; split; [reflexivity |];
     split; [reflexivity |]; split; [discriminate |]).
  - intros _. repeat split.
  - discriminate.
Qed.

Lemma handleSubmit_invalid
    (onVideoSubmit : Blob -> JsString -> Completion unit)
    (env : Env) (w : World State) :
  recordedBlob (state w) = None
  \/ truthy (trim (description (state w))) = false ->
  handleSubmit onVideoSubmit env w
  = (Return tt, mkWorld (state w) (ticks w) (log w ++ [missingInformation])).
Proof.
  destruct w as [s t lg]. cbn [state log ticks]. intros H.
  unfold handleSubmit. run_async.
  destruct H as [-> | ->]; [reflexivity |].
  destruct (recordedBlob s); reflexivity.
Qed.

(** X8.  [handleSubmit] calls [onVideoSubmit] exactly when a recorded blob
    is present and the description has at least one character that is not
    whitespace; it then calls it once.  In every other case it adds the
    [Missing Information] toast and nothing else. *)
Theorem handleSubmit_calls_iff :
  forall (onVideoSubmit : Blob -> JsString -> Completion unit)
         (env : Env) (w : World State),
    let run := handleSubmit onVideoSubmit env w in
    let accepted :=
      recordedBlob (state w) <> None
      /\ existsb (fun c => negb (isWhiteSpace c)) (description (state w)) = true in
    exists added,
      log (snd run) = log w ++ added
      /\ ((exists b d, In (OnVideoSubmit b d) added) <-> accepted)
      /\ (accepted ->
          exists b d toast,
            added = [OnVideoSubmit b d; toast] /\ isToast toast = true)
      /\ (~ accepted -> added = [missingInformation]).
Proof.
  intros onVideoSubmit env w run accepted. subst run accepted.
  rewrite <- truthy_trim.
  destruct (recordedBlob (state w)) as [blob |] eqn:Hblob.
  - destruct (truthy (trim (description (state w)))) eqn:Hdesc.
    + destruct (handleSubmit_valid onVideoSubmit env w blob Hblob Hdesc)
        as (toast & _ & Hlog & Htoast & _).
      eexists. split; [exact Hlog |]. split; [| split].
      * split; [intros _; split; [discriminate | reflexivity] |].
        intros _. do 2 eexists. left. reflexivity.
      * intros _. do 3 eexists. split; [reflexivity | exact Htoast].
      * intros H. exfalso. apply H. split; [discriminate | reflexivity].
    + rewrite handleSubmit_invalid by (right; rewrite Hblob; exact Hdesc) || auto.
      eexists. split; [reflexivity |]. split; [| split].
      * split; [intros (b & d & [E | []]); discriminate E |].
        intros (_ & E). discriminate E.
      * intros (_ & E). discriminate E.
      * reflexivity.
  - rewrite handleSubmit_invalid by auto.
    eexists. split; [reflexivity |]. split; [| split].
    + split; [intros (b & d & [E | []]); discriminate E |].
      intros (E & _). congruence.
    + intros (E & _). congruence.
    + reflexivity.
Qed.

(** X9.  The description that a valid submit hands to [onVideoSubmit] is
    the typed description without its leading and trailing whitespace: it
    is not empty, it neither starts nor ends with a whitespace character,
    and the typed description is that text between two runs of whitespace. *)
Theorem submitted_description_is_trimmed :
  forall (onVideoSubmit : Blob -> JsString -> Completion unit)
         (env : Env) (w : World State) (blob : Blob),
    recordedBlob (state w) = Some blob ->
    truthy (trim (description (state w))) = true ->
    exists d toast,
      log (snd (handleSubmit onVideoSubmit env w))
      = log w ++ [OnVideoSubmit blob d; toast]
      /\ d <> []
      /\ (forall c r, d = c :: r -> isWhiteSpace c = false)
      /\ (forall c r, d = r ++ [c] -> isWhiteSpace c = false)
      /\ exists pre post,
          description (state w) = pre ++ d ++ post
          /\ forallb isWhiteSpace pre = true
          /\ forallb isWhiteSpace post = true.
Proof.
  intros onVideoSubmit env w blob Hblob Hdesc.
  destruct (handleSubmit_valid onVideoSubmit env w blob Hblob Hdesc)
    as (toast & _ & Hlog & _).
  exists (trim (description (state w))), toast.
  split; [exact Hlog |]. split; [| split; [| split]].
  - intros E. rewrite E in Hdesc. discriminate Hdesc.
  - intros c r E. exact (trim_first _ r c E).
  - intros c r E. exact (trim_last _ r c E).
  - apply trim_split.
Qed.

Lemma submitted_description_is_trimmed_witness :
  recordedBlob (state (Sample.start (Sample.recorded (lit " leak "))))
  = Some Sample.oneByte
  /\ truthy (trim (description
               (state (Sample.start (Sample.recorded (lit " leak ")))))) = true
  /\ exists d toast,
      log (snd (handleSubmit (fun _ _ => Return tt) Sample.offline
                  (Sample.start (Sample.recorded (lit " leak ")))))
      = [] ++ [OnVideoSubmit Sample.oneByte d; toast]
      /\ d <> [].
Proof.
  assert (H1 : recordedBlob (state (Sample.start (Sample.recorded (lit " leak "))))
               = Some Sample.oneByte) by reflexivity.
  assert (H2 : truthy (trim (description
                 (state (Sample.start (Sample.recorded (lit " leak ")))))) = true)
    by reflexivity.
  split; [exact H1 | split; [exact H2 |]].
  destruct (submitted_description_is_trimmed (fun _ _ => Return tt)
              Sample.offline (Sample.start (Sample.recorded (lit " leak ")))
              Sample.oneByte H1 H2) as (d & toast & Hlog & Hd & _).
  exists d, toast. split; assumption.
Defined.

(** The two ways [startCamera] can go. *)
Lemma startCamera_run (device : Device) (env : Env) (w : World State) :
  startCamera device env w
  = match getUserMedia device (constraints (userAgent device)) with
    | Return stream =>
        (Return tt,
         mkWorld (setHasPermission (Some true)
                    (setStreamRef (Some stream) (state w)))
           (ticks w) (log w))
    | Throw _ =>
        (Return tt,
         mkWorld (setHasPermission (Some false) (state w)) (ticks w)
           (log w ++ [cameraDenied]))
    end.
Proof.
  unfold startCamera. run_async.
  destruct (getUserMedia device (constraints (userAgent device))); cbn;
    [| reflexivity].
  destruct (videoMounted device); cbn; [| reflexivity].
  destruct (play device) as [[] | e]; reflexivity.
Qed.

(** X10.  [startCamera] never throws.  When the device grants a stream, the
    stream is held and [hasPermission] is [true], without any toast, also
    when the preview's [play()] is rejected.  When the device refuses,
    [hasPermission] is [false], the user gets the [Camera Access Denied]
    toast, and the stream reference is left as it was.  Neither way touches
    the recording, the description or the buffered chunks. *)
Theorem startCamera_outcomes :
  forall (device : Device) (env : Env) (w : World State),
    let run := startCamera device env w in
    let answer := getUserMedia device (constraints (userAgent device)) in
    fst run = Return tt
    /\ (forall stream, answer = Return stream ->
          streamRef (state (snd run)) = Some stream
          /\ hasPermission (state (snd run)) = Some true
          /\ log (snd run) = log w)
    /\ (forall e, answer = Throw e ->
          streamRef (state (snd run)) = streamRef (state w)
          /\ hasPermission (state (snd run)) = Some false
          /\ log (snd run) = log w ++ [cameraDenied])
    /\ recordedBlob (state (snd run)) = recordedBlob (state w)
    /\ recordedVideoUrl (state (snd run)) = recordedVideoUrl (state w)
    /\ description (state (snd run)) = description (state w)
    /\ chunksRef (state (snd run)) = chunksRef (state w)
    /\ isRecording (state (snd run)) = isRecording (state w).
Proof.
  intros device env w run answer. subst run answer.
  rewrite startCamera_run.
  destruct (getUserMedia device (constraints (userAgent device))) as [stream | e];
    cbn; repeat split; intros; try congruence.
Qed.

Lemma startCamera_outcomes_witness :
  getUserMedia (MoreSample.denying MoreSample.desktop)
    (constraints (userAgent (MoreSample.denying MoreSample.desktop)))
  = Throw MoreSample.notAllowed
  /\ hasPermission
       (state (snd (startCamera (MoreSample.denying MoreSample.desktop)
                      Sample.offline (Sample.start initial))))
     = Some false.
Proof.
  split; [reflexivity |].
  destruct (startCamera_outcomes (MoreSample.denying MoreSample.desktop)
              Sample.offline (Sample.start initial))
    as (_ & _ & Hdenied & _).
  exact (proj1 (proj2 (Hdenied MoreSample.notAllowed eq_refl))).
Defined.

Lemma isMobile_spec (ua : JsString) :
  isMobile ua = true
  <-> exists kw pre post,
      In kw mobileKeywords
      /\ map toLower ua = pre ++ map toLower kw ++ post.
Proof.
  unfold isMobile, testIgnoreCase. rewrite existsb_exists. split.
  - intros (kw & Hin & H). apply includes_spec in H as (pre & post & H).
    exists kw, pre, post. auto.
  - intros (kw & pre & post & Hin & H). exists kw. split; [exact Hin |].
    apply includes_spec. eauto.
Qed.

(** X11.  [startCamera] asks for the rear camera ([environment]) exactly
    when the user agent contains one of Android, iPhone, iPad, iPod,
    BlackBerry, IEMobile, Opera Mini, in whatever letter case; for every
    other user agent it asks for the front camera ([user]).  The rest of
    the constraints is fixed: audio on, 1280x720 ideal, 1920x1080 at most,
    aspect ratio 9/16. *)
Theorem rear_camera_iff_mobile :
  forall (ua : JsString),
    let mobile :=
      exists kw pre post,
        In kw mobileKeywords
        /\ map toLower ua = pre ++ map toLower kw ++ post in
    (facingMode (video (constraints ua)) = lit "environment" <-> mobile)
    /\ (facingMode (video (constraints ua)) = lit "user" <-> ~ mobile)
    /\ constraints ua
       = mkConstraints
           (mkVideo 1280 1920 720 1080 (9 # 16)%Q
              (facingMode (video (constraints ua))))
           true.
Proof.
  intros ua mobile. subst mobile. rewrite <- isMobile_spec.
  unfold constraints. cbn [facingMode video].
  assert (Hdiff : lit "environment" <> lit "user") by discriminate.
  destruct (isMobile ua); (split; [| split; [| reflexivity]]).
  - split; reflexivity.
  - split; [intros H; elim (Hdiff H) | intros H; elim H; reflexivity].
  - split; [intros H; elim Hdiff; symmetry; exact H | discriminate].
  - split; [intros _; discriminate | reflexivity].
Qed.

Example rear_camera_on_phone :
  facingMode (video (constraints MoreSample.phone)) = lit "environment"
  /\ facingMode (video (constraints MoreSample.desktop)) = lit "user"
  /\ facingMode (video (constraints (lit "opera MINI/8"))) = lit "environment".
Proof. repeat split. Qed.

(** X12.  [resetRecording] discards the recorded blob, its URL, the
    description and the buffered chunks and asks for the camera again.
    When the camera is granted, a recording made next yields a blob with
    the bytes of the new chunks only, and the description is still empty. *)
Theorem reset_then_record :
  forall (device : Device) (env : Env) (w : World State)
         (stream : MediaStream) (during atStop : list Blob),
    getUserMedia device (constraints (userAgent device)) = Return stream ->
    let w1 := snd (resetRecording device env w) in
    let w2 := snd (recording during atStop env w1) in
    (recordedBlob (state w1) = None
     /\ recordedVideoUrl (state w1) = None
     /\ description (state w1) = []
     /\ chunksRef (state w1) = []
     /\ streamRef (state w1) = Some stream
     /\ log w1 = log w)
    /\ exists finalBlob,
        recordedBlob (state w2) = Some finalBlob
        /\ bytes finalBlob = concat (map bytes (during ++ atStop))
        /\ type finalBlob = lit "video/mp4"
        /\ description (state w2) = [].
Proof.
  intros device env w stream during atStop Hgrant w1 w2.
  assert (Hw1 : w1 = mkWorld
                  (setHasPermission (Some true)
                     (setStreamRef (Some stream)
                        (setChunksRef []
                           (setDescription []
                              (setRecordedBlob None
                                 (setRecordedVideoUrl None (state w)))))))
                  (ticks w) (log w)).
  { subst w1. unfold resetRecording. unfold bind, modify. cbn.
    rewrite startCamera_run, Hgrant. reflexivity. }
  split; [rewrite Hw1; repeat split |].
  assert (Hheld : streamRef (state w1) = Some stream) by (rewrite Hw1; reflexivity).
  destruct (recording_run env w1 stream Hheld during atStop)
    as (w' & Hrun & _ & _ & Hblob & _ & _ & _ & Hdesc).
  subst w2. rewrite Hrun. cbn [snd].
  eexists. split; [exact Hblob |]. split; [| split].
  - rewrite newBlob_bytes, map_app, concat_app, !bytes_nonEmpty.
    rewrite map_app, concat_app. reflexivity.
  - reflexivity.
  - rewrite Hdesc, Hw1. reflexivity.
Qed.

Lemma reset_then_record_witness :
  getUserMedia (MoreSample.granting MoreSample.phone)
    (constraints (userAgent (MoreSample.granting MoreSample.phone)))
  = Return (mkStream 2)
  /\ recordedBlob
       (state (snd (resetRecording (MoreSample.granting MoreSample.phone)
                      Sample.offline
                      (Sample.start (Sample.recorded (lit "leak"))))))
     = None.
Proof.
  split; [reflexivity |].
  exact (proj1 (proj1 (reset_then_record (MoreSample.granting MoreSample.phone)
                         Sample.offline
                         (Sample.start (Sample.recorded (lit "leak")))
                         (mkStream 2) [] [] eq_refl))).
Defined.

Import RecorderNotions.

Lemma coherent_same (s s' : State) :
  recordedVideoUrl s' = recordedVideoUrl s ->
  recordedBlob s' = recordedBlob s ->
  coherent s -> coherent s'.
Proof. unfold coherent. intros -> ->. trivial. Qed.

Lemma coherent_cleared (s : State) :
  recordedVideoUrl s = None -> recordedBlob s = None -> coherent s.
Proof.
  unfold coherent. intros -> ->. split; [tauto | discriminate].
Qed.

(** Every handler of the component returns and keeps [coherent]. *)
Lemma handle_coherent (e : Event) (env : Env) (w : World State) :
  fst (handle e env w) = Return tt
  /\ (coherent (state w) -> coherent (state (snd (handle e env w)))).
Proof.
  destruct e as [device | | data | | mediaRecorder | device | text | onVideoSubmit];
    cbn [handle].
  - rewrite startCamera_run.
    destruct (getUserMedia device _); cbn; split; trivial;
      apply coherent_same; reflexivity.
  - unfold startRecording. run_async.
    destruct (streamRef (state w)); cbn; split; trivial;
      apply coherent_same; reflexivity.
  - unfold ondataavailable. destruct (0 <? size data); cbn; split; trivial;
      apply coherent_same; reflexivity.
  - unfold stopRecording. run_async.
    destruct (mediaRecorderRef (state w)); [destruct (isRecording (state w)) |];
      cbn; split; trivial; apply coherent_same; reflexivity.
  - unfold onstop. run_async.
    destruct (streamRef (state w)); cbn; (split; [reflexivity |]); intros _;
      (split; [split; discriminate |]);
      intros b H; injection H as <-; reflexivity.
  - unfold resetRecording, bind, modify. cbn. rewrite startCamera_run.
    destruct (getUserMedia device _); cbn; split; trivial; intros _;
      apply coherent_cleared; reflexivity.
  - cbn. split; trivial; apply coherent_same; reflexivity.
  - destruct (recordedBlob (state w)) as [blob |] eqn:Hblob.
    + destruct (truthy (trim (description (state w)))) eqn:Hdesc.
      * destruct w as [s t lg]. cbn [state] in *.
        unfold handleSubmit. run_async. rewrite Hblob, Hdesc. cbn.
        destruct (onVideoSubmit blob (trim (description s))) as [[] | err]; cbn;
          split; trivial;
          solve [ intros _; apply coherent_cleared; reflexivity
                | apply coherent_same; reflexivity ].
      * rewrite handleSubmit_invalid by auto. cbn. tauto.
    + rewrite handleSubmit_invalid by auto. cbn. tauto.
Qed.

Lemma forEach_handle_cons (e : Event) (es : list Event) (env : Env)
    (w : World State) :
  forEach handle (e :: es) env w
  = forEach handle es env (snd (handle e env w)).
Proof.
  cbn [forEach]. unfold bind.
  destruct (handle_coherent e env w) as [Hret _].
  destruct (handle e env w) as [c w']. cbn in Hret. subst c. reflexivity.
Qed.

Lemma after_coherent (events : list Event) (env : Env) (w : World State) :
  fst (forEach handle events env w) = Return tt
  /\ (coherent (state w) -> coherent (state (after events env w))).
Proof.
  unfold after. revert w. induction events as [| e events IH]; intros w.
  - cbn. tauto.
  - rewrite forEach_handle_cons.
    destruct (IH (snd (handle e env w))) as [Hret Hkeep].
    split; [exact Hret |].
    intros Hw. apply Hkeep. apply (handle_coherent e env w). exact Hw.
Qed.



(** X14.  Whenever the component, started from its initial state, shows
    the submit button enabled, pressing it passes the validation of
    [handleSubmit]: a recorded blob is present, [onVideoSubmit] is called
    once with it and the trimmed description, and the [Missing Information]
    toast does not appear. *)
Theorem enabled_submit_is_valid :
  forall (events : list Event) (env env' : Env) (t : nat) (lg : list Effect)
         (onVideoSubmit : Blob -> JsString -> Completion unit),
    let w := after events env (mkWorld initial t lg) in
    submitEnabled (state w) = true ->
    exists blob toast,
      recordedBlob (state w) = Some blob
      /\ log (snd (handleSubmit onVideoSubmit env' w))
         = log w ++ [OnVideoSubmit blob (trim (description (state w))); toast]
      /\ isToast toast = true
      /\ toast <> missingInformation.
Proof.
  intros events env env' t lg onVideoSubmit w Henabled.
  assert (Hcoh : coherent (state w)).
  { apply (after_coherent events env (mkWorld initial t lg)).
    apply coherent_cleared; reflexivity. }
  destruct Hcoh as [Hurl _].
  unfold submitEnabled in Henabled.
  destruct (recordedBlob (state w)) as [blob |] eqn:Hblob.
  - assert (Hdesc : truthy (trim (description (state w))) = true).
    { destruct (hasPermission (state w)) as [[|] |];
        destruct (recordedVideoUrl (state w)); try discriminate Henabled;
        apply andb_prop in Henabled as [_ H];
        apply negb_true_iff, orb_false_elim in H as [_ H];
        apply negb_false_iff in H; exact H. }
    destruct (handleSubmit_valid onVideoSubmit env' w blob Hblob Hdesc)
      as (toast & _ & Hlog & Htoast & Hnot & _).
    exists blob, toast. repeat split; trivial.
  - assert (Hnone : recordedVideoUrl (state w) = None) by (apply Hurl; reflexivity).
    rewrite Hnone in Henabled.
    destruct (hasPermission (state w)) as [[|] |]; discriminate Henabled.
Qed.

Lemma enabled_submit_is_valid_witness :
  let w := after [Mount (MoreSample.granting MoreSample.phone); ClickStart;
                  DataAvailable Sample.oneByte; ClickStop;
                  Stopped (mkRecorder (lit "video/webm"));
                  Typed (lit " leak ")]
             Sample.offline (mkWorld initial 0 []) in
  submitEnabled (state w) = true
  /\ exists blob toast,
      recordedBlob (state w) = Some blob
      /\ log (snd (handleSubmit (fun _ _ => Return tt) Sample.offline w))
         = log w ++ [OnVideoSubmit blob (trim (description (state w))); toast].
Proof.
  intros w.
  assert (H : submitEnabled (state w) = true) by reflexivity.
  split; [exact H |].
  destruct (enabled_submit_is_valid
              [Mount (MoreSample.granting MoreSample.phone); ClickStart;
               DataAvailable Sample.oneByte; ClickStop;
               Stopped (mkRecorder (lit "video/webm")); Typed (lit " leak ")]
              Sample.offline Sample.offline 0%nat [] (fun _ _ => Return tt) H)
    as (blob & toast & Hblob & Hlog & _).
  exists blob, toast. split; assumption.
Defined.



(** X16.  [startRecording] starts with an empty buffer whatever was
    buffered before, and the chunks delivered afterwards are buffered in
    the order of arrival; a chunk of size zero is dropped. *)
Theorem chunks_buffered_in_order :
  forall (env : Env) (w : World State) (stream : MediaStream)
         (delivered : list Blob),
    streamRef (state w) = Some stream ->
    let w' := snd (forEach ondataavailable delivered
                     env (snd (startRecording env w))) in
    chunksRef (state w') = filter nonEmpty delivered
    /\ Forall (fun chunk => 0 < size chunk) (chunksRef (state w'))
    /\ concat (map bytes (chunksRef (state w')))
       = concat (map bytes delivered).
Proof.
  intros env w stream delivered held w'. subst w'.
  rewrite (startRecording_run env w stream held). cbn [snd].
  rewrite forEach_ondataavailable. cbn.
  split; [reflexivity |]. split.
  - apply Forall_forall. intros chunk Hin.
    apply filter_In in Hin as [_ H]. unfold nonEmpty in H.
    apply Z.ltb_lt. exact H.
  - apply bytes_nonEmpty.
Qed.

Lemma chunks_buffered_in_order_witness :
  streamRef (state (Sample.start Sample.idle)) = Some (mkStream 2)
  /\ chunksRef
       (state (snd (forEach ondataavailable
                      [Sample.oneByte; Sample.emptyBlob; Sample.oneByte]
                      Sample.offline
                      (snd (startRecording Sample.offline
                              (Sample.start Sample.idle))))))
     = filter nonEmpty [Sample.oneByte; Sample.emptyBlob; Sample.oneByte].
Proof.
  assert (H : streamRef (state (Sample.start Sample.idle)) = Some (mkStream 2))
    by reflexivity.
  split; [exact H |].
  exact (proj1 (chunks_buffered_in_order Sample.offline
                  (Sample.start Sample.idle) (mkStream 2)
                  [Sample.oneByte; Sample.emptyBlob; Sample.oneByte] H)).
Defined.

End RecorderExtra.

(* ===================================================================== *)
(** * Further properties of the dashboard *)
(* ===================================================================== *)

Module DashboardExtra.

Import Js Platform Api Dashboard.
Import Notions MoreNotions JsFacts ApiFacts DashboardFacts.

#[local] Arguments lit : simpl never.
#[local] Arguments eqb : simpl never.
#[local] Arguments toString : simpl never.
#[local] Arguments ApiService.uploadVideoForAnalysis : simpl never.
#[local] Arguments mapM : simpl never.
#[local] Arguments Qdiv : simpl never.
#[local] Arguments sweep : simpl never.

Lemma attemptCompletion_isError (videoBlob : Blob)
    (answer : Completion Response) (e : Exn) :
  attemptCompletion videoBlob answer = Throw e -> isError e = true.
Proof.
  unfold attemptCompletion, uploadCompletion.
  destruct (size videoBlob =? 0).
  - intros H. injection H as <-. reflexivity.
  - destruct answer as [r | e'].
    + destruct (ok r); [destruct (json_rejects r); [| discriminate] |];
        intros H; injection H as <-; apply ApiExtra.rethrown_isError.
    + intros H; injection H as <-; apply ApiExtra.rethrown_isError.
Qed.

(** The whole run of an attempt. *)
Lemma handleVideoSubmit_exact (env : Env) (w : World State)
    (videoBlob : Blob) (description : JsString) :
  let tempReport :=
    newTempReport (clock env (ticks w)) (clock env (S (ticks w)))
      videoBlob description in
  let answer := network env (S (S (ticks w))) (attemptRequest videoBlob description) in
  let c := attemptCompletion videoBlob answer in
  handleVideoSubmit videoBlob description env w
  = (Return tt,
     mkWorld
       (mkState (attemptReports env (catchTick videoBlob w) tempReport
                   (reports (state w)) c)
          false)
       (match c with
        | Return _ => catchTick videoBlob w
        | Throw _ => (S (length (reports (state w))) + catchTick videoBlob w)%nat
        end)
       (log w ++ attemptEffects videoBlob description answer ++ [attemptToast c])).
Proof.
  intros tempReport answer c.
  pose proof (attemptCompletion_isError videoBlob answer) as Herr.
  subst c answer tempReport.
  destruct w as [s t lg]. cbn [ticks state log] in *.
  unfold handleVideoSubmit. run_async.
  unfold attemptCompletion, attemptRequest, attemptEffects, catchTick in *.
  cbn [ticks] in *.
  destruct (Z.eqb_spec (size videoBlob) 0) as [Hz | Hnz].
  - rewrite upload_invalid by (right; eauto).
    rewrite mapM_reviewIfNow. cbn. reflexivity.
  - rewrite (ApiExtra.upload_exact ApiService.API_BASE_URL env _ videoBlob
               description Hnz).
    cbn [ticks state log].
    destruct (uploadCompletion _) as [response | e] eqn:Hc;
      cbn [attemptReports attemptToast].
    + destruct (VideoAnalysis.success response); cbn;
        rewrite <- app_assoc; reflexivity.
    + rewrite mapM_reviewIfNow. cbn. rewrite (Herr e eq_refl).
      rewrite <- app_assoc. reflexivity.
Qed.



(** ** The reports an attempt leaves *)

Lemma attemptReports_cons (env : Env) (n : nat) (tempReport : Report)
    (prev : list Report) (c : Completion VideoAnalysisResponse) :
  exists new olds,
    attemptReports env n tempReport prev c = new :: olds
    /\ (new = tempReport \/ new = withStatus reviewing tempReport
        \/ exists response,
            c = Return response /\ VideoAnalysis.success response = true
            /\ new = newUpdatedReport tempReport response)
    /\ Forall2 (fun r r' =>
                  r' = r \/ r' = withStatus reviewing r
                  \/ exists response,
                      id r = id tempReport
                      /\ r' = newUpdatedReport tempReport response)
               prev olds.
Proof.
  unfold attemptReports. destruct c as [response | e].
  - destruct (VideoAnalysis.success response) eqn:Hsuccess.
    + rewrite replaceById_head. do 2 eexists. split; [reflexivity |]. split.
      * right. right. exists response. auto.
      * unfold replaceById. induction prev as [| r prev IH]; cbn; constructor;
          trivial.
        destruct (eqb_spec (id r) (id tempReport)); eauto.
    + rewrite reviewById_head. do 2 eexists. split; [reflexivity |]. split.
      * auto.
      * unfold reviewById. induction prev as [| r prev IH]; cbn; constructor;
          trivial.
        destruct (eqb (id r) (id tempReport)); auto.
  - unfold sweep; fold sweep. do 2 eexists. split; [reflexivity |]. split.
    + destruct (eqb (id tempReport) (toString (clock env n))); auto.
    + generalize (S n). induction prev as [| r prev IH]; intros m;
        unfold sweep; fold sweep; constructor; trivial.
      destruct (eqb (id r) (toString (clock env m))); auto.
Qed.

Lemma attemptReports_ids (env : Env) (n : nat) (tempReport : Report)
    (prev : list Report) (c : Completion VideoAnalysisResponse) :
  map id (attemptReports env n tempReport prev c)
  = id tempReport :: map id prev.
Proof.
  destruct (attemptReports_cons env n tempReport prev c)
    as (new & olds & -> & Hnew & Holds).
  cbn [map]. f_equal.
  - destruct Hnew as [-> | [-> | (response & _ & _ & ->)]]; reflexivity.
  - induction Holds as [| r r' prev olds Hr _ IH]; cbn; [reflexivity |].
    f_equal; [| exact IH].
    destruct Hr as [-> | [-> | (response & Hid & ->)]]; cbn; congruence.
Qed.






(** X20.  In a session whose attempts each draw an id that the list does
    not have yet, the ids of the list stay pairwise distinct: the list of
    ids only grows at the front, by the id of each attempt.  From a freshly
    mounted page the ids are therefore pairwise distinct. *)
Theorem fresh_ids_stay_distinct :
  forall (n : nat) (w w' : World State),
    freshSession n w w' ->
    (exists added,
        map id (reports (state w')) = added ++ map id (reports (state w))
        /\ length added = n)
    /\ (NoDup (map id (reports (state w))) ->
        NoDup (map id (reports (state w'))))
    /\ (mounted w -> NoDup (map id (reports (state w')))).
Proof.
  intros n w w' Hsession.
  assert (H : (exists added,
                  map id (reports (state w'))
                  = added ++ map id (reports (state w))
                  /\ length added = n)
              /\ (NoDup (map id (reports (state w))) ->
                  NoDup (map id (reports (state w'))))).
  { induction Hsession
      as [w | n w w' env videoBlob description _ [(added & Hids & Hlen) IH] Hfresh].
    - split; [exists []; split; reflexivity | trivial].
    - rewrite handleVideoSubmit_exact. cbn [snd state reports].
      rewrite attemptReports_ids. cbn [id newTempReport].
      split.
      + exists (toString (clock env (ticks w')) :: added).
        rewrite Hids. split; [reflexivity | cbn; congruence].
      + intros Hw. constructor; [exact Hfresh | exact (IH Hw)]. }
  destruct H as [Hids Hdistinct].
  split; [exact Hids |]. split; [exact Hdistinct |].
  intros Hmounted. apply Hdistinct. unfold mounted in Hmounted.
  rewrite Hmounted. constructor.
Qed.

Lemma fresh_ids_stay_distinct_witness :
  let w1 := snd (handleVideoSubmit Sample.oneByte (lit "leak")
                   (Sample.answering 200 None true)
                   (Sample.start Sample.emptyPage)) in
  let w2 := snd (handleVideoSubmit Sample.oneByte (lit "crack")
                   (Sample.answering 200 None true) w1) in
  freshSession 1 w1 w2
  /\ NoDup (map id (reports (state w1)))
  /\ NoDup (map id (reports (state w2))).
Proof.
  intros w1 w2.
  assert (H : freshSession 1 w1 w2).
  { apply fresh_submit; [apply fresh_nil |].
    vm_compute. intros [E | []]. discriminate E. }
  assert (H1 : NoDup (map id (reports (state w1)))).
  { vm_compute. constructor; [intros [] | constructor]. }
  split; [exact H | split; [exact H1 |]].
  exact (proj1 (proj2 (fresh_ids_stay_distinct 1%nat w1 w2 H)) H1).
Defined.

(** ** A clock that moves *)









(** X23.  After an attempt, the row of its report offers the View Analysis
    button exactly when the upload returned a result with [success = true]
    and a non-empty analysis text: not after a failed or thrown upload, and
    not for a completed report whose analysis is the empty string. *)
Theorem attempt_offers_analysis_iff :
  forall (env : Env) (w : World State) (videoBlob : Blob)
         (description : JsString),
    let c := fst (ApiService.uploadVideoForAnalysis ApiService.API_BASE_URL
                    (Some videoBlob) description env
                    (pendingWorld env w videoBlob description)) in
    exists new olds,
      reports (state (snd (handleVideoSubmit videoBlob description env w)))
      = new :: olds
      /\ (Page.offersAnalysis new = true
          <-> exists response,
              c = Return response
              /\ VideoAnalysis.success response = true
              /\ VideoAnalysis.analysis (VideoAnalysis.data response) <> []).
Proof.
  intros env w videoBlob description c. subst c.
  rewrite upload_completion. cbn [ticks pendingWorld].
  rewrite handleVideoSubmit_exact. cbn [snd state reports].
  destruct (attemptCompletion _ _) as [response | e]; cbn [attemptReports].
  - destruct (VideoAnalysis.success response) eqn:Hsuccess.
    + rewrite replaceById_head. do 2 eexists. split; [reflexivity |].
      unfold Page.offersAnalysis. cbn.
      destruct (VideoAnalysis.analysis (VideoAnalysis.data response)) eqn:Htext;
        cbn; split.
      * discriminate.
      * intros (r & H & _ & Hne). injection H as <-. congruence.
      * intros _. exists response. rewrite Htext. repeat split; trivial.
        discriminate.
      * reflexivity.
    + rewrite reviewById_head. do 2 eexists. split; [reflexivity |].
      split; [discriminate |].
      intros (r & H & Hs & _). injection H as <-. congruence.
  - unfold sweep; fold sweep. do 2 eexists. split; [reflexivity |].
    split.
    + destruct (eqb _ _); discriminate.
    + intros (r & H & _). discriminate H.
Qed.

End DashboardExtra.

(* ===================================================================== *)
(** * The recorder wired to the page, and the connection indicator *)
(* ===================================================================== *)

Module PageExtra.

Import Js Platform VideoRecorder.
Import Notions MoreNotions JsFacts ApiFacts RecorderExtra DashboardExtra.

#[local] Arguments lit : simpl never.
#[local] Arguments eqb : simpl never.
#[local] Arguments trim : simpl never.

(** X18.  With [handleVideoSubmit] of the page as its [onVideoSubmit], as
    the dashboard wires it, every valid submit of the recorder takes the
    success path, whatever became of the upload: the page's handler catches
    every failure and resolves, so the recorder shows [Report Submitted]
    and clears the recorded blob, its URL and the description, also when
    the upload failed. *)
Theorem wired_submit_always_clears :
  forall (pageEnv : Env) (page : World Dashboard.State)
         (env : Env) (w : World State) (blob : Blob),
    recordedBlob (state w) = Some blob ->
    truthy (trim (description (state w))) = true ->
    let run := handleSubmit (wired pageEnv page) env w in
    fst run = Return tt
    /\ recordedBlob (state (snd run)) = None
    /\ recordedVideoUrl (state (snd run)) = None
    /\ log (snd run)
       = log w ++ [ OnVideoSubmit blob (trim (description (state w)));
                    Toast (lit "Report Submitted")
                      (lit "Your video report has been submitted successfully!")
                      false ].
Proof.
  intros pageEnv page env w blob Hblob Hdesc run. subst run.
  assert (Hresolves :
    wired pageEnv page blob (trim (description (state w))) = Return tt).
  { unfold wired. rewrite handleVideoSubmit_exact. reflexivity. }
  destruct (handleSubmit_valid (wired pageEnv page) env w blob Hblob Hdesc)
    as (toast & Hret & Hlog & _ & _ & Hcleared).
  destruct (Hcleared Hresolves) as (-> & Hb & Hu).
  auto.
Qed.

Lemma wired_submit_always_clears_witness :
  recordedBlob (state (Sample.start (Sample.recorded (lit " leak "))))
  = Some Sample.oneByte
  /\ truthy (trim (description
               (state (Sample.start (Sample.recorded (lit " leak ")))))) = true
  /\ recordedBlob
       (state (snd (handleSubmit
                      (wired Sample.offline (Sample.start Sample.emptyPage))
                      Sample.offline
                      (Sample.start (Sample.recorded (lit " leak "))))))
     = None.
Proof.
  assert (H1 : recordedBlob (state (Sample.start (Sample.recorded (lit " leak "))))
               = Some Sample.oneByte) by reflexivity.
  assert (H2 : truthy (trim (description
                 (state (Sample.start (Sample.recorded (lit " leak ")))))) = true)
    by reflexivity.
  split; [exact H1 | split; [exact H2 |]].
  exact (proj1 (proj2 (wired_submit_always_clears Sample.offline
                         (Sample.start Sample.emptyPage) Sample.offline
                         (Sample.start (Sample.recorded (lit " leak ")))
                         Sample.oneByte H1 H2))).
Defined.

(** The whole run of [testConnection]. *)
Lemma testConnection_exact {St : Type} (env : Env) (w : World St) :
  ApiService.testConnection ApiService.API_BASE_URL env w
  = (Return (connectedOf
               (network env (ticks w)
                  (ApiService.testRequest ApiService.API_BASE_URL))),
     mkWorld (state w) (S (ticks w))
       (log w ++ [Fetch (ApiService.testRequest ApiService.API_BASE_URL)])).
Proof.
  unfold ApiService.testConnection, connectedOf. run_async.
  destruct (network env (ticks w) _) as [r | e]; cbn; [| reflexivity].
  destruct (ok r); cbn; [| reflexivity].
  destruct (json_rejects r); reflexivity.
Qed.

(** X24.  The Test Connection button never ends in its [Connection Error]
    branch, because [testConnection] never throws: it makes one request,
    stores the answer in [isBackendConnected], and shows [Connection
    Successful] exactly when the response was 2xx with a JSON body and the
    destructive [Connection Failed] otherwise.  The reports are not
    touched. *)
Theorem handleTestConnection_outcomes :
  forall (env : Env) (w : World Page.State),
    let run := Page.handleTestConnection env w in
    let answer :=
      network env (ticks w) (ApiService.testRequest ApiService.API_BASE_URL) in
    fst run = Return tt
    /\ exists connected,
        Page.isBackendConnected (state (snd run)) = Some connected
        /\ (connected = true
            <-> exists r, answer = Return r /\ ok r = true
                          /\ json_rejects r = None)
        /\ log (snd run)
           = log w
             ++ [ Fetch (ApiService.testRequest ApiService.API_BASE_URL);
                  if connected
                  then Toast (lit "Connection Successful")
                         (lit "Backend service is running and ready for video analysis.")
                         false
                  else Toast (lit "Connection Failed")
                         (lit "Unable to connect to the backend service.")
                         true ]
        /\ Page.core (state (snd run)) = Page.core (state w).
Proof.
  intros env w run answer. subst run.
  assert (Hiff : connectedOf answer = true
                 <-> exists r, answer = Return r /\ ok r = true
                               /\ json_rejects r = None).
  { unfold connectedOf. destruct answer as [r | e].
    - destruct (ok r) eqn:Hok; destruct (json_rejects r) eqn:Hjson; cbn; split;
        try discriminate; try (intros _; exists r; auto);
        intros (r' & H & Hok' & Hjson'); injection H as <-; congruence.
    - split; [discriminate | intros (r & H & _); discriminate H]. }
  assert (Hrun :
    Page.handleTestConnection env w
    = (Return tt,
       mkWorld (Page.setIsBackendConnected (Some (connectedOf answer)) (state w))
         (S (ticks w))
         (log w
          ++ [ Fetch (ApiService.testRequest ApiService.API_BASE_URL);
               if connectedOf answer
               then Toast (lit "Connection Successful")
                      (lit "Backend service is running and ready for video analysis.")
                      false
               else Toast (lit "Connection Failed")
                      (lit "Unable to connect to the backend service.")
                      true ]))).
  { unfold Page.handleTestConnection, tryCatch, bind.
    rewrite testConnection_exact. fold answer.
    unfold modify, emit. cbn.
    destruct (connectedOf answer); cbn; rewrite <- app_assoc; reflexivity. }
  rewrite Hrun. cbn [fst snd state log].
  split; [reflexivity |].
  exists (connectedOf answer). repeat split; trivial; apply Hiff.
Qed.

(** X25.  The connection test that runs when the page mounts records the
    answer in [isBackendConnected] and is silent on success: it shows one
    destructive toast, [Backend Connection Failed], exactly when the
    backend did not answer 2xx with a JSON body, and never its [Connection
    Error] toast. *)
Theorem testConnectionOnMount_outcomes :
  forall (env : Env) (w : World Page.State),
    let run := Page.testConnectionOnMount env w in
    let connected :=
      connectedOf
        (network env (ticks w) (ApiService.testRequest ApiService.API_BASE_URL)) in
    fst run = Return tt
    /\ Page.isBackendConnected (state (snd run)) = Some connected
    /\ log (snd run)
       = log w
         ++ Fetch (ApiService.testRequest ApiService.API_BASE_URL)
            :: (if connected then []
                else [Toast (lit "Backend Connection Failed")
                        (lit "Unable to connect to the video analysis service. Please check if the backend is running.")
                        true])
    /\ Page.core (state (snd run)) = Page.core (state w).
Proof.
  intros env w run connected. subst run.
  assert (Hrun :
    Page.testConnectionOnMount env w
    = (Return tt,
       mkWorld (Page.setIsBackendConnected (Some connected) (state w))
         (S (ticks w))
         (log w
          ++ Fetch (ApiService.testRequest ApiService.API_BASE_URL)
             :: (if connected then []
                 else [Toast (lit "Backend Connection Failed")
                         (lit "Unable to connect to the video analysis service. Please check if the backend is running.")
                         true])))).
  { unfold Page.testConnectionOnMount, tryCatch, bind.
    rewrite testConnection_exact. fold connected.
    unfold modify, emit, ret. cbn.
    destruct connected; cbn; [reflexivity |].
    rewrite <- app_assoc. reflexivity. }
  rewrite Hrun. repeat split.
Qed.

End PageExtra.
